(** * runsimgh: the GitHub check-run integration of the simulation runner

    A shallow embedding of [lib/runsimgh/runsimgh.go].  The [Integration]
    struct becomes a record of optional fields (Go's nil-able pointers), its
    methods become computations in a small state monad that threads the
    receiver together with the outside world, and every collaborator (the
    DynamoDB state table, the SSM parameter store, the GitHub App transport,
    the GitHub REST client, the clock) is an oracle of a [Host] record.  A
    run-time panic (nil dereference, [panic(err)]) is an explicit outcome. *)

From stdpp Require Import gmap strings list fin_maps.
From Stdlib Require Import ZArith Ascii String Lia.

Local Open Scope string_scope.
Local Open Scope Z_scope.
Local Open Scope list_scope.

(** ** Go values shared by every package *)

(** The two sentinel errors of [strconv]. *)
Inductive num_err := ErrSyntax | ErrRange.

(** Go's [error] interface, by the ways this program obtains one. *)
Inductive error :=
| errors_New (text : string)
| NumError (Func Num : string) (Err : num_err)
| Remote (text : string).

(** What a [panic] carries. *)
Inductive panic_value :=
| NilDereference
| PanicError (err : error).

#[global] Instance num_err_eq_dec : EqDecision num_err.
Proof. solve_decision. Defined.
#[global] Instance error_eq_dec : EqDecision error.
Proof. solve_decision. Defined.
#[global] Instance panic_value_eq_dec : EqDecision panic_value.
Proof. solve_decision. Defined.

(** ** strconv *)
Module strconv.

(** Go's [int] on the 64-bit targets the tool is built for. *)
Definition intSize : Z := 64.
Definition maxUint64 : Z := 2 ^ 64 - 1.

Definition is_digit (c : ascii) : bool :=
  ((48 <=? N_of_ascii c) && (N_of_ascii c <=? 57))%N.

Definition digit_val (c : ascii) : Z := Z.of_N (N_of_ascii c) - 48.

(** The loop of [ParseUint] at base 10: a byte that is no digit is a syntax
    error, and the first digit that takes the value past [maxUint64] is a
    range error; whichever comes first in the string wins. *)
Fixpoint ParseUint_loop (s : string) (n : Z) : Z + num_err :=
  match s with
  | EmptyString => inl n
  | String c rest =>
      if is_digit c then
        let n1 := n * 10 + digit_val c in
        if maxUint64 <? n1 then inr ErrRange else ParseUint_loop rest n1
      else inr ErrSyntax
  end.

Definition ParseUint (s : string) : Z + num_err :=
  match s with
  | EmptyString => inr ErrSyntax
  | _ => ParseUint_loop s 0
  end.

(** [ParseInt(s, 10, 0)]: an optional sign, then [ParseUint], then the
    check against the cutoff [1 << 63]. *)
Definition ParseInt (s : string) : Z + num_err :=
  match s with
  | EmptyString => inr ErrSyntax
  | String c rest =>
      let '(neg, body) :=
        if Ascii.eqb c "+" then (false, rest)
        else if Ascii.eqb c "-" then (true, rest)
        else (false, s) in
      match ParseUint body with
      | inr k => inr k
      | inl un =>
          let cutoff := 2 ^ (intSize - 1) in
          if negb neg && (cutoff <=? un) then inr ErrRange
          else if neg && (cutoff <? un) then inr ErrRange
          else inl (if neg then - un else un)
      end
  end.

(** [Atoi]: its fast path for short strings accepts the same strings with
    the same values as [ParseInt(s, 10, 0)], which it falls back to. *)
Definition Atoi (s : string) : Z + error :=
  match ParseInt s with
  | inl n => inl n
  | inr k => inr (NumError "Atoi" s k)
  end.

End strconv.

(** ** github: the part of go-github v27 the integration touches *)
Module github.

Module PullRequestBranch.
Record t := { Ref : option string; SHA : option string }.
(** The generated accessors accept a nil receiver. *)
Definition GetRef (p : option t) : string :=
  match p with Some b => default "" (Ref b) | None => "" end.
Definition GetSHA (p : option t) : string :=
  match p with Some b => default "" (SHA b) | None => "" end.
End PullRequestBranch.

Module PullRequest.
Record t := { Number : option Z; Head : option PullRequestBranch.t }.
End PullRequest.

Module CheckRunOutput.
Record t := { Title : option string; Summary : option string }.
End CheckRunOutput.

Module Timestamp.
Record t := { Time : Z }.
End Timestamp.

Module CheckRun.
Record t := {
  ID : option Z;
  Name : option string;
  Status : option string;
  Conclusion : option string;
  HeadSHA : option string;
  Output : option CheckRunOutput.t
}.
Definition GetID (c : option t) : Z :=
  match c with Some r => default 0 (ID r) | None => 0 end.
Definition GetName (c : option t) : string :=
  match c with Some r => default "" (Name r) | None => "" end.
Definition GetConclusion (c : option t) : string :=
  match c with Some r => default "" (Conclusion r) | None => "" end.
End CheckRun.

Module CreateCheckRunOptions.
Record t := { Name : string; HeadBranch : string; HeadSHA : string }.
End CreateCheckRunOptions.

Module ListCheckRunsOptions.
Record t := { CheckName : option string; Filter : option string }.
End ListCheckRunsOptions.

Module ListCheckRunsResults.
Record t := { Total : option Z; CheckRuns : list (option CheckRun.t) }.
End ListCheckRunsResults.

Module UpdateCheckRunOptions.
Record t := {
  Name : string;
  HeadBranch : option string;
  HeadSHA : option string;
  Status : option string;
  Conclusion : option string;
  CompletedAt : option Timestamp.t;
  Output : option CheckRunOutput.t
}.
End UpdateCheckRunOptions.

End github.

(** ** ghinstallation: the GitHub App transport *)
Module ghapp.
Record Transport := {
  integrationID : Z;
  installationID : Z;
  privateKey : string
}.
End ghapp.

Module github_client.
(** [github.NewClient(&http.Client{Transport: transport})]. *)
Record Client := { Transport : ghapp.Transport }.
Definition NewClient (tr : ghapp.Transport) : Client := {| Transport := tr |}.
End github_client.

(** ** The outside world *)

(** A DynamoDB item: attribute name to (string) attribute value. *)
Abbreviation Item := (gmap string string).

Module runsimaws.

(** The handle [DdbTable.Config(region, primaryKey, tableName)] sets up. *)
Record DdbTable := {
  Region : string;
  PrimaryKey : string;
  Table : string
}.

Definition DdbTable_Config (awsRegion primaryKey tableName : string) : DdbTable :=
  {| Region := awsRegion; PrimaryKey := primaryKey; Table := tableName |}.

(** The handle [Ssm.Config(region)] sets up. *)
Record Ssm := { SsmRegion : string }.

Definition Ssm_Config (awsRegion : string) : Ssm := {| SsmRegion := awsRegion |}.

End runsimaws.

(** Every call that leaves the process, in the order it is made. *)
Inductive Event :=
| EvGetState (tbl : runsimaws.DdbTable) (key : string)
| EvPutState (tbl : runsimaws.DdbTable) (item : Item)
| EvDeleteState (tbl : runsimaws.DdbTable) (key : string)
| EvGetParameter (ssm : runsimaws.Ssm) (id : string)
| EvGhappNew (integrationID installationID : Z) (privateKey : string)
| EvPullRequestsGet (owner repo : string) (number : Z)
| EvCreateCheckRun (owner repo : string) (opt : github.CreateCheckRunOptions.t)
| EvListCheckRunsForRef (owner repo ref : string) (opt : github.ListCheckRunsOptions.t)
| EvGetCheckRun (owner repo : string) (id : Z)
| EvUpdateCheckRun (owner repo : string) (id : Z) (opt : github.UpdateCheckRunOptions.t).

(** The collaborators.  Each oracle sees the history of calls made so far, so
    a host may answer the same request differently at different times. *)
Record Host := {
  ddb_fault : list Event -> option error;
  ssm_GetParameter : list Event -> runsimaws.Ssm -> string -> string + error;
  ghapp_New : list Event -> Z -> Z -> string -> option error;
  PullRequests_Get :
    list Event -> string -> string -> Z -> option github.PullRequest.t * option error;
  Checks_CreateCheckRun :
    list Event -> string -> string -> github.CreateCheckRunOptions.t ->
    option github.CheckRun.t * option error;
  Checks_ListCheckRunsForRef :
    list Event -> string -> string -> string -> github.ListCheckRunsOptions.t ->
    option github.ListCheckRunsResults.t * option error;
  Checks_GetCheckRun :
    list Event -> string -> string -> Z -> option github.CheckRun.t * option error;
  Checks_UpdateCheckRun :
    list Event -> string -> string -> Z -> github.UpdateCheckRunOptions.t ->
    option github.CheckRun.t * option error;
  time_Now : list Event -> Z
}.

(** The mutable part of the world: the log of calls and the table contents,
    one item per (region, table, partition-key value). *)
Record World := {
  trace : list Event;
  tables : gmap (string * string * string) Item
}.

Definition log (ev : Event) (w : World) : World :=
  {| trace := trace w ++ [ev]; tables := tables w |}.

(** ** The Integration struct *)

Definition primaryKey : string := "IntegrationType".
Definition tableName : string := "SimulationState".

Record Integration := {
  Client : option github_client.Client;
  PR : option github.PullRequest.t;
  ActiveCheckRun : option github.CheckRun.t;
  State : option runsimaws.DdbTable;
  IntegrationType : option string;
  CheckRunName : option string;
  InstallationID : option string;
  IntegrationID : option string;
  RepoOwner : option string;
  RepoName : option string;
  PrNum : option string
}.

(** The zero value [Integration{}]. *)
Definition zero_Integration : Integration :=
  {| Client := None; PR := None; ActiveCheckRun := None; State := None;
     IntegrationType := None; CheckRunName := None; InstallationID := None;
     IntegrationID := None; RepoOwner := None; RepoName := None; PrNum := None |}.

(** ** The method monad: receiver and world threaded, panics explicit *)

Record Session := { self : Integration; world : World }.

Inductive outcome (A : Type) :=
| Returns (a : A)
| Panics (p : panic_value).
Arguments Returns {A} a.
Arguments Panics {A} p.

Definition M (A : Type) : Type := Session -> outcome A * Session.

Definition ret {A} (a : A) : M A := fun s => (Returns a, s).

Definition bind {A B} (m : M A) (k : A -> M B) : M B :=
  fun s =>
    match m s with
    | (Returns a, s') => k a s'
    | (Panics p, s') => (Panics p, s')
    end.

Definition panic {A} (p : panic_value) : M A := fun s => (Panics p, s).

Notation "x <- m ;; k" := (bind m (fun x => k))
  (at level 100, m at next level, right associativity).
Notation "m ;;; k" := (bind m (fun _ => k))
  (at level 100, right associativity).

(** [gh.f] and [gh.f = v]. *)
Definition read {A} (f : Integration -> A) : M A := fun s => (Returns (f (self s)), s).
Definition modify (f : Integration -> Integration) : M unit :=
  fun s => (Returns tt, {| self := f (self s); world := world s |}).

(** [*p]: dereferencing nil panics. *)
Definition deref {A} (p : option A) : M A :=
  match p with Some a => ret a | None => panic NilDereference end.

(** Making an external call: the oracle answers from the history before the
    call, and the call is appended to the history. *)
Definition call {A} (ev : Event) (answer : list Event -> A) : M A :=
  fun s => (Returns (answer (trace (world s))),
            {| self := self s; world := log ev (world s) |}).

(** A method of the receiver that performs no call and writes nothing. *)
Definition eval {A} (f : Integration -> outcome A) : M A :=
  fun s => (f (self s), s).

Definition update_tables
    (f : gmap (string * string * string) Item -> gmap (string * string * string) Item)
    : M unit :=
  fun s => (Returns tt,
            {| self := self s;
               world := {| trace := trace (world s); tables := f (tables (world s)) |} |}).

(** Field assignments [gh.f = v]. *)
Definition set_Client (v : option github_client.Client) (gh : Integration) : Integration :=
  {| Client := v; PR := PR gh; ActiveCheckRun := ActiveCheckRun gh; State := State gh;
     IntegrationType := IntegrationType gh; CheckRunName := CheckRunName gh;
     InstallationID := InstallationID gh; IntegrationID := IntegrationID gh;
     RepoOwner := RepoOwner gh; RepoName := RepoName gh; PrNum := PrNum gh |}.

Definition set_PR (v : option github.PullRequest.t) (gh : Integration) : Integration :=
  {| Client := Client gh; PR := v; ActiveCheckRun := ActiveCheckRun gh; State := State gh;
     IntegrationType := IntegrationType gh; CheckRunName := CheckRunName gh;
     InstallationID := InstallationID gh; IntegrationID := IntegrationID gh;
     RepoOwner := RepoOwner gh; RepoName := RepoName gh; PrNum := PrNum gh |}.

Definition set_ActiveCheckRun (v : option github.CheckRun.t) (gh : Integration) : Integration :=
  {| Client := Client gh; PR := PR gh; ActiveCheckRun := v; State := State gh;
     IntegrationType := IntegrationType gh; CheckRunName := CheckRunName gh;
     InstallationID := InstallationID gh; IntegrationID := IntegrationID gh;
     RepoOwner := RepoOwner gh; RepoName := RepoName gh; PrNum := PrNum gh |}.

Definition set_State (v : option runsimaws.DdbTable) (gh : Integration) : Integration :=
  {| Client := Client gh; PR := PR gh; ActiveCheckRun := ActiveCheckRun gh; State := v;
     IntegrationType := IntegrationType gh; CheckRunName := CheckRunName gh;
     InstallationID := InstallationID gh; IntegrationID := IntegrationID gh;
     RepoOwner := RepoOwner gh; RepoName := RepoName gh; PrNum := PrNum gh |}.

Definition set_CheckRunName (v : option string) (gh : Integration) : Integration :=
  {| Client := Client gh; PR := PR gh; ActiveCheckRun := ActiveCheckRun gh; State := State gh;
     IntegrationType := IntegrationType gh; CheckRunName := v;
     InstallationID := InstallationID gh; IntegrationID := IntegrationID gh;
     RepoOwner := RepoOwner gh; RepoName := RepoName gh; PrNum := PrNum gh |}.

(** ** The persisted subset of the struct *)

Definition put_attr (name : string) (v : option string) (item : Item) : Item :=
  match v with
  | Some x => <[name := x]> item
  | None => item
  end.

(** Modelled from the spec: the marshalling done inside
    [runsimaws.DdbTable.PutState], whose source is not part of the tree.  Only
    the seven identity/config fields are ever persisted, each under its field
    name, and an absent field yields no attribute; [Client], [PR],
    [ActiveCheckRun] and the table handle are not written. *)
Definition marshal (gh : Integration) : Item :=
  put_attr "IntegrationType" (IntegrationType gh)
    (put_attr "CheckRunName" (CheckRunName gh)
       (put_attr "InstallationID" (InstallationID gh)
          (put_attr "IntegrationID" (IntegrationID gh)
             (put_attr "RepoOwner" (RepoOwner gh)
                (put_attr "RepoName" (RepoName gh)
                   (put_attr "PrNum" (PrNum gh) ∅)))))).

(** Modelled from the spec: the decoding done inside
    [runsimaws.DdbTable.GetState]: the record is loaded into the seven
    identity/config fields, an attribute missing from the record leaving its
    field absent; the live-session fields are not touched. *)
Definition unmarshal (item : Item) (gh : Integration) : Integration :=
  {| Client := Client gh; PR := PR gh; ActiveCheckRun := ActiveCheckRun gh; State := State gh;
     IntegrationType := item !! "IntegrationType";
     CheckRunName := item !! "CheckRunName";
     InstallationID := item !! "InstallationID";
     IntegrationID := item !! "IntegrationID";
     RepoOwner := item !! "RepoOwner";
     RepoName := item !! "RepoName";
     PrNum := item !! "PrNum" |}.

(** ** Accessors and validation (receiver only) *)

Definition deref_pure {A} (p : option A) : outcome A :=
  match p with Some a => Returns a | None => Panics NilDereference end.

Definition GetOwner (gh : Integration) : outcome string := deref_pure (RepoOwner gh).
Definition GetRepo (gh : Integration) : outcome string := deref_pure (RepoName gh).
Definition GetCheckRunName (gh : Integration) : outcome string := deref_pure (CheckRunName gh).

(** [strconv.Atoi] of the pointed-to string, then [panic(err)] on failure. *)
Definition atoi_or_panic (p : option string) : outcome Z :=
  match p with
  | None => Panics NilDereference
  | Some s =>
      match strconv.Atoi s with
      | inl n => Returns n
      | inr err => Panics (PanicError err)
      end
  end.

Definition GetPrNum (gh : Integration) : outcome Z := atoi_or_panic (PrNum gh).
Definition GetAppInstID (gh : Integration) : outcome Z := atoi_or_panic (InstallationID gh).
Definition GetAppIntID (gh : Integration) : outcome Z := atoi_or_panic (IntegrationID gh).

Definition is_nil {A} (p : option A) : bool :=
  match p with None => true | Some _ => false end.

Definition ValidateState (gh : Integration) : option error :=
  if is_nil (IntegrationID gh) then
    Some (errors_New "ErrorMissingAttribute: IntegrationID")
  else if is_nil (InstallationID gh) then
    Some (errors_New "ErrorMissingAttribute: InstallationID ")
  else if is_nil (PrNum gh) then
    Some (errors_New "ErrorMissingAttribute: PrNum")
  else if is_nil (RepoName gh) then
    Some (errors_New "ErrorMissingAttribute: RepoName")
  else if is_nil (RepoOwner gh) then
    Some (errors_New "ErrorMissingAttribute: RepoOwner")
  else if is_nil (CheckRunName gh) then
    Some (errors_New "ErrorMissingAttribute: CheckRunName")
  else None.

(** ** The methods *)

Section Methods.

Context (h : Host).

(** Modelled from the spec: [runsimaws.DdbTable.PutState], whose source is not
    part of the tree.  [save(source) -> error] is an upsert: it overwrites any
    record stored under the same partition-key value; it fails when the store
    is unreachable, and a record without its partition-key attribute cannot
    be stored. *)
Definition DdbTable_PutState (tbl : runsimaws.DdbTable) (gh : Integration) : M (option error) :=
  let item := marshal gh in
  fault <- call (EvPutState tbl item) (ddb_fault h);;
  match fault with
  | Some e => ret (Some e)
  | None =>
      match item !! runsimaws.PrimaryKey tbl with
      | None => ret (Some (Remote "ValidationException"))
      | Some k =>
          update_tables (insert (runsimaws.Region tbl, runsimaws.Table tbl, k) item);;;
          ret None
      end
  end.

(** Modelled from the spec: [runsimaws.DdbTable.GetState], whose source is not
    part of the tree.  [load(keyValue, destination) -> error] decodes the
    record stored under the key into the destination; its errors are
    transport or not-found failures, and a failed load writes nothing. *)
Definition DdbTable_GetState (tbl : runsimaws.DdbTable) (key : string) : M (option error) :=
  fault <- call (EvGetState tbl key) (ddb_fault h);;
  match fault with
  | Some e => ret (Some e)
  | None =>
      fun s =>
        match tables (world s) !! (runsimaws.Region tbl, runsimaws.Table tbl, key) with
        | None => (Returns (Some (Remote "ResourceNotFoundException")), s)
        | Some item => (modify (unmarshal item);;; ret None) s
        end
  end.

(** Modelled from the spec: [runsimaws.DdbTable.DeleteState], whose source is
    not part of the tree.  [delete(keyValue) -> error] is idempotent: deleting
    an absent record is not an error. *)
Definition DdbTable_DeleteState (tbl : runsimaws.DdbTable) (key : string) : M (option error) :=
  fault <- call (EvDeleteState tbl key) (ddb_fault h);;
  match fault with
  | Some e => ret (Some e)
  | None =>
      update_tables (delete (runsimaws.Region tbl, runsimaws.Table tbl, key));;;
      ret None
  end.

(** [runsimaws.Ssm.GetParameter]: the secret provider. *)
Definition Ssm_GetParameter (ssm : runsimaws.Ssm) (id : string) : M (string + error) :=
  call (EvGetParameter ssm id) (fun t => ssm_GetParameter h t ssm id).

(** [ghapp.New(http.DefaultTransport, integrationID, installationID, key)]. *)
Definition ghapp_New_call (integrationID installationID : Z) (key : string)
    : M (ghapp.Transport + error) :=
  r <- call (EvGhappNew integrationID installationID key)
            (fun t => ghapp_New h t integrationID installationID key);;
  match r with
  | Some e => ret (inr e)
  | None =>
      ret (inl {| ghapp.integrationID := integrationID;
                  ghapp.installationID := installationID;
                  ghapp.privateKey := key |})
  end.

(** The tail both constructors share, from the secret retrieval on: fetch the
    key, authenticate the app, install the client, fetch the pull request. *)
Definition authenticate (awsRegion keyID : string) : M (option error) :=
  let ssm := runsimaws.Ssm_Config awsRegion in
  r <- Ssm_GetParameter ssm keyID;;
  match r with
  | inr e => ret (Some e)
  | inl privateKey =>
      intID <- eval GetAppIntID;;
      instID <- eval GetAppInstID;;
      r <- ghapp_New_call intID instID privateKey;;
      match r with
      | inr e => ret (Some e)
      | inl transport =>
          modify (set_Client (Some (github_client.NewClient transport)));;;
          _ <- (c <- read Client;; deref c);;
          owner <- eval GetOwner;;
          repo <- eval GetRepo;;
          num <- eval GetPrNum;;
          r <- call (EvPullRequestsGet owner repo num)
                    (fun t => PullRequests_Get h t owner repo num);;
          modify (set_PR (fst r));;;
          ret (snd r)
      end
  end.

Definition ConfigFromState (awsRegion ghAccessTokenID : string) : M (option error) :=
  let tbl := runsimaws.DdbTable_Config awsRegion primaryKey tableName in
  modify (set_State (Some tbl));;;
  err <- DdbTable_GetState tbl "GitHub";;
  match err with
  | Some _ => ret err
  | None =>
      err <- read ValidateState;;
      match err with
      | Some _ => ret err
      | None => authenticate awsRegion ghAccessTokenID
      end
  end.

Definition ConfigFromScratch
    (awsRegion privateKeyID repoOwner repoName checkRunName
       installationID integrationID prNum : string) : M (option error) :=
  modify (fun gh =>
    {| Client := Client gh; PR := PR gh; ActiveCheckRun := ActiveCheckRun gh;
       State := Some (runsimaws.DdbTable_Config awsRegion primaryKey tableName);
       IntegrationType := Some "GitHub";
       CheckRunName := Some checkRunName;
       InstallationID := Some installationID;
       IntegrationID := Some integrationID;
       RepoOwner := Some repoOwner;
       RepoName := Some repoName;
       PrNum := Some prNum |});;;
  tbl <- (t <- read State;; deref t);;
  gh <- read id;;
  err <- DdbTable_PutState tbl gh;;
  match err with
  | Some _ => ret err
  | None => authenticate awsRegion privateKeyID
  end.

Definition CreateNewCheckRun : M (option error) :=
  name <- eval GetCheckRunName;;
  pr <- (p <- read PR;; deref p);;
  let opt :=
    {| github.CreateCheckRunOptions.Name := name;
       github.CreateCheckRunOptions.HeadBranch :=
         github.PullRequestBranch.GetRef (github.PullRequest.Head pr);
       github.CreateCheckRunOptions.HeadSHA :=
         github.PullRequestBranch.GetSHA (github.PullRequest.Head pr) |} in
  _ <- (c <- read Client;; deref c);;
  owner <- eval GetOwner;;
  repo <- eval GetRepo;;
  r <- call (EvCreateCheckRun owner repo opt)
            (fun t => Checks_CreateCheckRun h t owner repo opt);;
  modify (set_ActiveCheckRun (fst r));;;
  match snd r with
  | Some e => ret (Some e)
  | None =>
      cr <- (a <- read ActiveCheckRun;; deref a);;
      modify (set_CheckRunName (github.CheckRun.Name cr));;;
      ret None
  end.

Definition SetActiveCheckRun : M (option error) :=
  _ <- (c <- read Client;; deref c);;
  owner <- eval GetOwner;;
  repo <- eval GetRepo;;
  pr <- (p <- read PR;; deref p);;
  let ref := github.PullRequestBranch.GetRef (github.PullRequest.Head pr) in
  name <- eval GetCheckRunName;;
  let opt :=
    {| github.ListCheckRunsOptions.CheckName := Some name;
       github.ListCheckRunsOptions.Filter := Some "latest" |} in
  r <- call (EvListCheckRunsForRef owner repo ref opt)
            (fun t => Checks_ListCheckRunsForRef h t owner repo ref opt);;
  match snd r with
  | Some e => ret (Some e)
  | None =>
      listCheckRunResult <- deref (fst r);;
      match github.ListCheckRunsResults.CheckRuns listCheckRunResult with
      | [] => ret (Some (errors_New "ErrorNoActiveCheckRunsFound"))
      | first :: _ =>
          if decide (github.CheckRun.GetConclusion first = "") then
            modify (set_ActiveCheckRun first);;;
            ret None
          else ret (Some (errors_New "ErrorNoActiveCheckRunsFound"))
      end
  end.

Definition UpdateActiveCheckRun : M (option error) :=
  _ <- (c <- read Client;; deref c);;
  owner <- eval GetOwner;;
  repo <- eval GetRepo;;
  id <- read (fun gh => github.CheckRun.GetID (ActiveCheckRun gh));;
  r <- call (EvGetCheckRun owner repo id)
            (fun t => Checks_GetCheckRun h t owner repo id);;
  modify (set_ActiveCheckRun (fst r));;;
  ret (snd r).

(** The last statement of [ConcludeCheckRun] and [UpdateCheckRunStatus]. *)
Definition send_update (opt : github.UpdateCheckRunOptions.t) : M (option error) :=
  _ <- (c <- read Client;; deref c);;
  owner <- eval GetOwner;;
  repo <- eval GetRepo;;
  id <- read (fun gh => github.CheckRun.GetID (ActiveCheckRun gh));;
  r <- call (EvUpdateCheckRun owner repo id opt)
            (fun t => Checks_UpdateCheckRun h t owner repo id opt);;
  modify (set_ActiveCheckRun (fst r));;;
  ret (snd r).

Definition ConcludeCheckRun (summary conclusion : option string) : M (option error) :=
  name <- read (fun gh => github.CheckRun.GetName (ActiveCheckRun gh));;
  now <- (fun s => (Returns (time_Now h (trace (world s))), s));;
  let opt :=
    {| github.UpdateCheckRunOptions.Name := name;
       github.UpdateCheckRunOptions.HeadBranch := None;
       github.UpdateCheckRunOptions.HeadSHA := None;
       github.UpdateCheckRunOptions.Status := Some "completed";
       github.UpdateCheckRunOptions.Conclusion := conclusion;
       github.UpdateCheckRunOptions.CompletedAt := Some {| github.Timestamp.Time := now |};
       github.UpdateCheckRunOptions.Output :=
         Some {| github.CheckRunOutput.Title := Some "Details";
                 github.CheckRunOutput.Summary := summary |} |} in
  send_update opt.

Definition UpdateCheckRunStatus (status summary : option string) : M (option error) :=
  name <- read (fun gh => github.CheckRun.GetName (ActiveCheckRun gh));;
  pr <- (p <- read PR;; deref p);;
  head <- deref (github.PullRequest.Head pr);;
  let opt :=
    {| github.UpdateCheckRunOptions.Name := name;
       github.UpdateCheckRunOptions.HeadBranch := github.PullRequestBranch.Ref head;
       github.UpdateCheckRunOptions.HeadSHA := github.PullRequestBranch.SHA head;
       github.UpdateCheckRunOptions.Status := status;
       github.UpdateCheckRunOptions.Conclusion := None;
       github.UpdateCheckRunOptions.CompletedAt := None;
       github.UpdateCheckRunOptions.Output :=
         match summary with
         | Some _ =>
             Some {| github.CheckRunOutput.Title := Some "Details";
                     github.CheckRunOutput.Summary := summary |}
         | None => None
         end |} in
  send_update opt.

Definition DeleteState : M (option error) :=
  tbl <- (t <- read State;; deref t);;
  DdbTable_DeleteState tbl "GitHub".

End Methods.

(** ** Vocabulary for stating the properties *)

(** The six fields [ValidateState] requires. *)
Inductive Field :=
| FIntegrationID | FInstallationID | FPrNum | FRepoName | FRepoOwner | FCheckRunName.

#[global] Instance Field_eq_dec : EqDecision Field.
Proof. solve_decision. Defined.

Definition field_value (f : Field) (gh : Integration) : option string :=
  match f with
  | FIntegrationID => IntegrationID gh
  | FInstallationID => InstallationID gh
  | FPrNum => PrNum gh
  | FRepoName => RepoName gh
  | FRepoOwner => RepoOwner gh
  | FCheckRunName => CheckRunName gh
  end.

Definition field_name (f : Field) : string :=
  match f with
  | FIntegrationID => "IntegrationID"
  | FInstallationID => "InstallationID"
  | FPrNum => "PrNum"
  | FRepoName => "RepoName"
  | FRepoOwner => "RepoOwner"
  | FCheckRunName => "CheckRunName"
  end.

(** appId, installationId, prNumber, repoName, repoOwner, checkRunName. *)
Definition validation_order : list Field :=
  [FIntegrationID; FInstallationID; FPrNum; FRepoName; FRepoOwner; FCheckRunName].

Definition absent (gh : Integration) (f : Field) : bool := is_nil (field_value f gh).

(** The first required field, in validation order, that is absent. *)
Definition first_absent (gh : Integration) : option Field :=
  List.find (absent gh) validation_order.

(** [contains needle hay]: [needle] occurs in [hay]. *)
Fixpoint contains (needle hay : string) : bool :=
  if String.prefix needle hay then true
  else match hay with
       | EmptyString => false
       | String _ rest => contains needle rest
       end.

(** An error names a field when its text mentions the field's name. *)
Definition names (e : error) (f : Field) : bool :=
  match e with
  | errors_New text => contains (field_name f) text
  | _ => false
  end.

(** Running a method on a receiver in a world, and reading off the result. *)
Definition run {A} (m : M A) (gh : Integration) (w : World) : outcome A * Session :=
  m {| self := gh; world := w |}.

Definition result {A} (r : outcome A * Session) : outcome A := fst r.
Definition receiver {A} (r : outcome A * Session) : Integration := self (snd r).
Definition world_after {A} (r : outcome A * Session) : World := world (snd r).

(** The calls a run added to the history [before]. *)
Definition new_calls (before : World) (after : World) : list Event :=
  drop (List.length (trace before)) (trace after).

(** The policy error of [SetActiveCheckRun]. *)
Definition NoActiveCheckRunFound : error := errors_New "ErrorNoActiveCheckRunsFound".

(** The request [SetActiveCheckRun] sends for a given name. *)
Definition latest_named (name : string) : github.ListCheckRunsOptions.t :=
  {| github.ListCheckRunsOptions.CheckName := Some name;
     github.ListCheckRunsOptions.Filter := Some "latest" |}.

Definition head_ref (pr : github.PullRequest.t) : string :=
  github.PullRequestBranch.GetRef (github.PullRequest.Head pr).

(** The calls that make up authentication: secret retrieval, building the
    app transport, and the first use of the client. *)
Definition is_auth_step (ev : Event) : bool :=
  match ev with
  | EvGetParameter _ _ | EvGhappNew _ _ _ | EvPullRequestsGet _ _ _ => true
  | _ => false
  end.

Definition is_fetch (ev : Event) : bool :=
  match ev with
  | EvPullRequestsGet _ _ _ => true
  | _ => false
  end.

(** The pull-request fetch was attempted among these calls. *)
Definition fetch_reached (calls : list Event) : bool := existsb is_fetch calls.

(** What a construction call leaves behind, seen from outside: [calls] are
    the calls it made, [r] its result and final state, [gh] the receiver it
    started from. *)
Definition construction_outcome
    (h : Host) (gh : Integration) (calls : list Event)
    (r : outcome (option error) * Session) : Prop :=
  (fetch_reached calls = false ->
     result r <> Returns None /\
     forall e, result r = Returns (Some e) -> Client (receiver r) = Client gh) /\
  (fetch_reached calls = true ->
     exists hist owner repo num tr,
       trace (world_after r) = hist ++ [EvPullRequestsGet owner repo num] /\
       Client (receiver r) = Some (github_client.NewClient tr) /\
       PR (receiver r) = fst (PullRequests_Get h hist owner repo num) /\
       result r = Returns (snd (PullRequests_Get h hist owner repo num))).

(** The identity/config fields of two receivers agree. *)
Definition same_identity (a b : Integration) : Prop :=
  IntegrationType a = IntegrationType b /\
  CheckRunName a = CheckRunName b /\
  InstallationID a = InstallationID b /\
  IntegrationID a = IntegrationID b /\
  RepoOwner a = RepoOwner b /\
  RepoName a = RepoName b /\
  PrNum a = PrNum b.

(** The record fresh construction persists for its arguments. *)
Definition scratch_record
    (repoOwner repoName checkRunName installationID integrationID prNum : string) : Item :=
  <["IntegrationType" := "GitHub"]>
    (<["CheckRunName" := checkRunName]>
       (<["InstallationID" := installationID]>
          (<["IntegrationID" := integrationID]>
             (<["RepoOwner" := repoOwner]>
                (<["RepoName" := repoName]>
                   (<["PrNum" := prNum]> ∅)))))).

(** The host's answer to a check-run call made after the history [hist]. *)
Definition answered_by (h : Host) (hist : list Event) (ev : Event)
    : option (option github.CheckRun.t * option error) :=
  match ev with
  | EvCreateCheckRun owner repo opt => Some (Checks_CreateCheckRun h hist owner repo opt)
  | EvGetCheckRun owner repo id => Some (Checks_GetCheckRun h hist owner repo id)
  | EvUpdateCheckRun owner repo id opt => Some (Checks_UpdateCheckRun h hist owner repo id opt)
  | _ => None
  end.

(** Everything of the receiver except [ActiveCheckRun] and [CheckRunName]. *)
Definition same_session_and_ids (a b : Integration) : Prop :=
  Client a = Client b /\
  PR a = PR b /\
  State a = State b /\
  IntegrationType a = IntegrationType b /\
  InstallationID a = InstallationID b /\
  IntegrationID a = IntegrationID b /\
  RepoOwner a = RepoOwner b /\
  RepoName a = RepoName b /\
  PrNum a = PrNum b.

(** The frame of a check-run operation: only [ActiveCheckRun] may differ. *)
Definition only_ActiveCheckRun_changed (before after : Integration) : Prop :=
  same_session_and_ids after before /\ CheckRunName after = CheckRunName before.

Definition details (summary : option string) : github.CheckRunOutput.t :=
  {| github.CheckRunOutput.Title := Some "Details";
     github.CheckRunOutput.Summary := summary |}.

(** Where the record of the fixed integration type lives in a region. *)
Definition state_key (awsRegion : string) : string * string * string :=
  (awsRegion, tableName, "GitHub").

(** The attribute names a persisted record may carry. *)
Definition persisted_attributes : gset string :=
  {[ "IntegrationType"; "CheckRunName"; "InstallationID"; "IntegrationID";
     "RepoOwner"; "RepoName"; "PrNum" ]}.

(** ** What it means for a stored identifier to parse as an integer *)

(** The value of a run of decimal digits read after the prefix value [acc];
    nothing if a byte is no digit. *)
Fixpoint digits_value (s : string) (acc : Z) : option Z :=
  match s with
  | EmptyString => Some acc
  | String c rest =>
      if strconv.is_digit c then digits_value rest (acc * 10 + strconv.digit_val c)
      else None
  end.

(** The integer a string denotes: an optional sign and then at least one
    decimal digit, nothing else. *)
Definition literal_value (s : string) : option Z :=
  match s with
  | EmptyString => None
  | String c rest =>
      if Ascii.eqb c "+" then
        match rest with EmptyString => None | _ => digits_value rest 0 end
      else if Ascii.eqb c "-" then
        match rest with EmptyString => None | _ => Z.opp <$> digits_value rest 0 end
      else digits_value s 0
  end.

(** The string parses as the integer [n]: it denotes [n], and [n] fits the
    64-bit [int]. *)
Definition parses_as_int (s : string) (n : Z) : Prop :=
  literal_value s = Some n /\ - 2 ^ 63 <= n < 2 ^ 63.

(** What the three numeric accessors owe a stored string [s]. *)
Definition parse_or_panic (s : string) (stored : option string) (got : outcome Z) : Prop :=
  stored = Some s ->
  (forall n, parses_as_int s n -> got = Returns n) /\
  ((forall n, ~ parses_as_int s n) ->
     exists err, strconv.Atoi s = inr err /\ got = Panics (PanicError err)) /\
  (forall n, parses_as_int s n -> forall p, got <> Panics p).

(** ** Fixtures *)

(** A host whose answers do not depend on the request or the history. *)
Definition fixture_host
    (fault : option error)
    (secret : string + error)
    (auth : option error)
    (fetched : option github.PullRequest.t * option error)
    (listed : option github.ListCheckRunsResults.t * option error)
    (run_answer : option github.CheckRun.t * option error) : Host :=
  {| ddb_fault := fun _ => fault;
     ssm_GetParameter := fun _ _ _ => secret;
     ghapp_New := fun _ _ _ _ => auth;
     PullRequests_Get := fun _ _ _ _ => fetched;
     Checks_CreateCheckRun := fun _ _ _ _ => run_answer;
     Checks_ListCheckRunsForRef := fun _ _ _ _ _ => listed;
     Checks_GetCheckRun := fun _ _ _ _ => run_answer;
     Checks_UpdateCheckRun := fun _ _ _ _ _ => run_answer;
     time_Now := fun _ => 1572566400 |}.

Definition fixture_head : github.PullRequestBranch.t :=
  {| github.PullRequestBranch.Ref := Some "feature";
     github.PullRequestBranch.SHA := Some "0a1b2c3" |}.

Definition fixture_pr : github.PullRequest.t :=
  {| github.PullRequest.Number := Some 7;
     github.PullRequest.Head := Some fixture_head |}.

Definition fixture_run (name : string) (conclusion : option string) : github.CheckRun.t :=
  {| github.CheckRun.ID := Some 11;
     github.CheckRun.Name := Some name;
     github.CheckRun.Status := Some "in_progress";
     github.CheckRun.Conclusion := conclusion;
     github.CheckRun.HeadSHA := Some "0a1b2c3";
     github.CheckRun.Output := None |}.

Definition fixture_list (runs : list (option github.CheckRun.t))
    : github.ListCheckRunsResults.t :=
  {| github.ListCheckRunsResults.Total := Some (Z.of_nat (List.length runs));
     github.ListCheckRunsResults.CheckRuns := runs |}.

Definition fixture_client : github_client.Client :=
  github_client.NewClient
    {| ghapp.integrationID := 1; ghapp.installationID := 2; ghapp.privateKey := "pem" |}.

(** A receiver as a successful construction leaves it, tracking a run. *)
Definition fixture_integration : Integration :=
  {| Client := Some fixture_client;
     PR := Some fixture_pr;
     ActiveCheckRun := Some (fixture_run "sim" None);
     State := Some (runsimaws.DdbTable_Config "us-east-1" primaryKey tableName);
     IntegrationType := Some "GitHub";
     CheckRunName := Some "sim";
     InstallationID := Some "2";
     IntegrationID := Some "1";
     RepoOwner := Some "cosmos";
     RepoName := Some "tools";
     PrNum := Some "7" |}.

(** The same receiver with the pull-request number missing. *)
Definition fixture_without_PrNum : Integration :=
  {| Client := None; PR := None; ActiveCheckRun := None;
     State := Some (runsimaws.DdbTable_Config "us-east-1" primaryKey tableName);
     IntegrationType := Some "GitHub";
     CheckRunName := Some "sim";
     InstallationID := Some "2";
     IntegrationID := Some "1";
     RepoOwner := Some "cosmos";
     RepoName := Some "tools";
     PrNum := None |}.

Definition empty_world : World := {| trace := []; tables := ∅ |}.

(** Every collaborator answers well. *)
Definition healthy_host : Host :=
  fixture_host None (inl "pem") None (Some fixture_pr, None)
    (Some (fixture_list [Some (fixture_run "sim" None)]), None)
    (Some (fixture_run "sim" None), None).

(** The store rejects writes and reads. *)
Definition store_down_host : Host :=
  fixture_host (Some (Remote "RequestError")) (inl "pem") None (Some fixture_pr, None)
    (Some (fixture_list []), None) (None, None).

(** The secret provider fails. *)
Definition secret_down_host : Host :=
  fixture_host None (inr (Remote "ParameterNotFound")) None (Some fixture_pr, None)
    (Some (fixture_list []), None) (None, None).

(** Everything works up to the pull-request fetch, which fails. *)
Definition fetch_fails_host : Host :=
  fixture_host None (inl "pem") None (None, Some (Remote "404 Not Found"))
    (Some (fixture_list []), None) (None, None).

(** The check-run endpoints fail, returning no check run. *)
Definition checks_down_host : Host :=
  fixture_host None (inl "pem") None (Some fixture_pr, None)
    (None, Some (Remote "502 Bad Gateway")) (None, Some (Remote "502 Bad Gateway")).

(** The host answers a creation with a check run under another name. *)
Definition renaming_host : Host :=
  fixture_host None (inl "pem") None (Some fixture_pr, None)
    (Some (fixture_list []), None) (Some (fixture_run "sim (queued)" None), None).

(** Fresh construction on the zero value, with the fixture's identifiers. *)
Definition fixture_scratch (h : Host) : outcome (option error) * Session :=
  run (ConfigFromScratch h "us-east-1" "key-id" "cosmos" "tools" "sim" "2" "1" "7")
    zero_Integration empty_world.

(** ** Proof automation *)

(** Expose the state passing of a method run. *)
Ltac unfold_monad :=
  unfold run, result, receiver, world_after, bind, read, modify, deref, eval, call,
    ret, panic, update_tables,
    GetOwner, GetRepo, GetCheckRunName, deref_pure in *.

(** Case analysis on the innermost scrutinee of the goal, repeatedly. *)
Ltac case_matches :=
  repeat match goal with
         | |- context [match ?x with _ => _ end] =>
             lazymatch x with
             | context [match _ with _ => _ end] => fail
             | _ => destruct x eqn:?; simpl
             end
         end.

(** Run a method on every shape of receiver and compare field by field. *)
Ltac frame_by_cases gh :=
  destruct gh as [c pr a st it crn inst int ro rn pn];
  unfold_monad; simpl; case_matches;
  unfold only_ActiveCheckRun_changed, same_session_and_ids; simpl;
  try solve [repeat split; congruence].

(** ** Vocabulary for the remaining behaviour *)

(** Calls to the state table. *)
Definition is_store_call (ev : Event) : bool :=
  match ev with
  | EvGetState _ _ | EvPutState _ _ | EvDeleteState _ _ => true
  | _ => false
  end.

(** Calls to the check-run endpoints. *)
Definition is_check_run_call (ev : Event) : bool :=
  match ev with
  | EvCreateCheckRun _ _ _ | EvListCheckRunsForRef _ _ _ _
  | EvGetCheckRun _ _ _ | EvUpdateCheckRun _ _ _ _ => true
  | _ => false
  end.

(** Running a second method on what a first run left behind. *)
Definition and_then {A B} (r : outcome A * Session) (m : M B) : outcome B * Session :=
  run m (receiver r) (world_after r).

(** The transport [ghapp.New] builds for these arguments. *)
Definition app_client (integrationID installationID : Z) (key : string)
    : github_client.Client :=
  github_client.NewClient
    {| ghapp.integrationID := integrationID;
       ghapp.installationID := installationID;
       ghapp.privateKey := key |}.

(** The request [CreateNewCheckRun] sends for a name and a pull request. *)
Definition create_options (name : string) (pr : github.PullRequest.t)
    : github.CreateCheckRunOptions.t :=
  {| github.CreateCheckRunOptions.Name := name;
     github.CreateCheckRunOptions.HeadBranch :=
       github.PullRequestBranch.GetRef (github.PullRequest.Head pr);
     github.CreateCheckRunOptions.HeadSHA :=
       github.PullRequestBranch.GetSHA (github.PullRequest.Head pr) |}.

(** ** More fixtures *)

(** A world whose table holds [item] as the record of region [us-east-1]. *)
Definition world_with_record (item : Item) : World :=
  {| trace := []; tables := {[ state_key "us-east-1" := item ]} |}.

(** The complete, numeric record of the fixture receiver. *)
Definition fixture_record : Item := scratch_record "cosmos" "tools" "sim" "2" "1" "7".

(** A complete record whose integration id is no number. *)
Definition fixture_record_bad_app : Item :=
  scratch_record "cosmos" "tools" "sim" "2" "app-one" "7".

(** The host answers check-run calls with a run that has no name. *)
Definition nameless_host : Host :=
  fixture_host None (inl "pem") None (Some fixture_pr, None)
    (Some (fixture_list []), None)
    (Some {| github.CheckRun.ID := Some 12;
             github.CheckRun.Name := None;
             github.CheckRun.Status := Some "queued";
             github.CheckRun.Conclusion := None;
             github.CheckRun.HeadSHA := None;
             github.CheckRun.Output := None |}, None).

(** A pull request snapshot without a head. *)
Definition headless_pr : github.PullRequest.t :=
  {| github.PullRequest.Number := Some 7; github.PullRequest.Head := None |}.

(** The fixture receiver holding the headless pull request. *)
Definition fixture_headless : Integration := set_PR (Some headless_pr) fixture_integration.

(** ** Failing construction steps *)

(** A construction step failed with [e] and the call ended there: the error
    is returned and [Client] is what it was on the receiver [gh] the call
    started from. *)
Definition fails_without_client
    (gh : Integration) (e : error) (r : outcome (option error) * Session) : Prop :=
  result r = Returns (Some e) /\ Client (receiver r) = Client gh.

(** The three steps both constructors share, each failing in turn.  [gh] is
    the receiver the call started from, [loaded] the receiver as it enters
    authentication (its fields loaded or assigned), [t1] the history at that
    point, [r] the run of the constructor.
    - the secret retrieval fails: its error is returned, no client;
    - the secret is served, the two app identifiers are numeric and the app
      authentication fails: its error is returned, no client;
    - both are served, the pull-request number is numeric and the
      pull-request fetch fails: its error is returned, and the client built
      from the identifiers and the secret is installed. *)
Definition authentication_steps
    (h : Host) (awsRegion keyID : string)
    (gh loaded : Integration) (t1 : list Event)
    (r : outcome (option error) * Session) : Prop :=
  let ssm := runsimaws.Ssm_Config awsRegion in
  let t2 := t1 ++ [EvGetParameter ssm keyID] in
  (forall e,
     ssm_GetParameter h t1 ssm keyID = inr e ->
     fails_without_client gh e r) /\
  (forall key intID instID e,
     ssm_GetParameter h t1 ssm keyID = inl key ->
     GetAppIntID loaded = Returns intID ->
     GetAppInstID loaded = Returns instID ->
     ghapp_New h t2 intID instID key = Some e ->
     fails_without_client gh e r) /\
  (forall key intID instID owner repo num e,
     ssm_GetParameter h t1 ssm keyID = inl key ->
     GetAppIntID loaded = Returns intID ->
     GetAppInstID loaded = Returns instID ->
     ghapp_New h t2 intID instID key = None ->
     GetOwner loaded = Returns owner ->
     GetRepo loaded = Returns repo ->
     GetPrNum loaded = Returns num ->
     snd (PullRequests_Get h (t2 ++ [EvGhappNew intID instID key]) owner repo num) = Some e ->
     result r = Returns (Some e) /\
     Client (receiver r) = Some (app_client intID instID key)).

(** * Properties *)

(** ** Validation *)

Lemma first_absent_None gh :
  first_absent gh = None <-> forall f, absent gh f = false.
Proof.
  unfold first_absent, validation_order. split.
  - intros H f. simpl in H.
    repeat match type of H with
           | (if ?b then _ else _) = _ => destruct b eqn:?; [discriminate|]
           end.
    destruct f; assumption.
  - intros H. simpl. rewrite !H. reflexivity.
Qed.

Lemma ValidateState_by_first_absent gh :
  match first_absent gh with
  | None => ValidateState gh = None
  | Some f =>
      exists e, ValidateState gh = Some e /\ forall g, names e g = true <-> g = f
  end.
Proof.
  destruct gh as [c pr a st it crn inst int ro rn pn].
  unfold first_absent, ValidateState, absent, validation_order; simpl.
  destruct int; simpl;
    [destruct inst; simpl;
      [destruct pn; simpl;
        [destruct rn; simpl;
          [destruct ro; simpl;
            [destruct crn; simpl; [reflexivity|]|]|]|]|]|];
    (eexists; split; [reflexivity|]);
    intros g; (split; [destruct g; vm_compute; congruence | intros ->; reflexivity]).
Qed.

(** C1.  [ValidateState] succeeds exactly when none of the six required
    fields is absent.  When it fails, the error names exactly one field, the
    first absent one in the order appId (IntegrationID), installationId,
    prNumber, repoName, repoOwner, checkRunName: later fields are not looked
    at.  In particular, when exactly one field is absent the error names
    exactly that field. *)
Theorem ValidateState_reports_first_missing (gh : Integration) :
  (ValidateState gh = None <-> forall f, absent gh f = false) /\
  (forall f, first_absent gh = Some f ->
     exists e, ValidateState gh = Some e /\ forall g, names e g = true <-> g = f) /\
  (forall f, (forall g, absent gh g = true <-> g = f) ->
     exists e, ValidateState gh = Some e /\ forall g, names e g = true <-> g = f).
Proof.
  pose proof (ValidateState_by_first_absent gh) as Hv.
  split; [|split].
  - rewrite <- first_absent_None.
    destruct (first_absent gh) eqn:E.
    + destruct Hv as (e & -> & _). split; discriminate.
    + split; auto.
  - intros f Hf. rewrite Hf in Hv. exact Hv.
  - intros f Hf.
    destruct (first_absent gh) as [f'|] eqn:E.
    + assert (f' = f) as <-; [|exact Hv].
      apply Hf. unfold first_absent in E.
      apply List.find_some in E. tauto.
    + apply first_absent_None with (f := f) in E.
      assert (absent gh f = true) by (apply Hf; reflexivity). congruence.
Qed.

(** ** Locating the active check run *)

(** Whatever happens, a run of [SetActiveCheckRun] that does not succeed
    leaves [ActiveCheckRun] as it was. *)
Lemma SetActiveCheckRun_failure_keeps h gh w :
  result (run (SetActiveCheckRun h) gh w) <> Returns None ->
  ActiveCheckRun (receiver (run (SetActiveCheckRun h) gh w)) = ActiveCheckRun gh.
Proof.
  destruct gh as [c pr a st it crn inst int ro rn pn].
  unfold SetActiveCheckRun. unfold_monad. simpl.
  destruct c; simpl; [|reflexivity].
  destruct ro; simpl; [|reflexivity].
  destruct rn; simpl; [|reflexivity].
  destruct pr; simpl; [|reflexivity].
  destruct crn; simpl; [|reflexivity].
  destruct (Checks_ListCheckRunsForRef h _ _ _ _ _) as [[res|] [e|]]; simpl;
    try reflexivity.
  destruct (github.ListCheckRunsResults.CheckRuns res) as [|first rest]; simpl;
    [reflexivity|].
  destruct (decide _); simpl; [congruence | reflexivity].
Qed.

(** C2.  When the host returns a list of check runs, [SetActiveCheckRun]
    fails with the no-active-check-run error exactly when the list is empty
    or its first entry has a non-empty conclusion; otherwise it succeeds and
    [ActiveCheckRun] becomes that first entry.  A run that fails installs no
    new [ActiveCheckRun]. *)
Theorem SetActiveCheckRun_first_unconcluded
    (h : Host) (gh : Integration) (w : World)
    (c : github_client.Client) (owner repo name : string)
    (pr : github.PullRequest.t) (res : github.ListCheckRunsResults.t) :
  Client gh = Some c ->
  RepoOwner gh = Some owner ->
  RepoName gh = Some repo ->
  CheckRunName gh = Some name ->
  PR gh = Some pr ->
  Checks_ListCheckRunsForRef h (trace w) owner repo (head_ref pr) (latest_named name)
    = (Some res, None) ->
  let runs := github.ListCheckRunsResults.CheckRuns res in
  let r := run (SetActiveCheckRun h) gh w in
  (result r = Returns (Some NoActiveCheckRunFound) <->
     runs = [] \/
     exists first rest, runs = first :: rest /\ github.CheckRun.GetConclusion first <> "") /\
  (result r <> Returns (Some NoActiveCheckRunFound) ->
     exists first rest, runs = first :: rest /\
       result r = Returns None /\ ActiveCheckRun (receiver r) = first) /\
  (result r <> Returns None -> ActiveCheckRun (receiver r) = ActiveCheckRun gh).
Proof.
  intros Hc Ho Hr Hn Hp Hhost runs r.
  split; [|split]; [| |apply SetActiveCheckRun_failure_keeps].
  all: subst r runs; destruct gh as [c' pr' a st it crn inst int ro rn pn];
    simpl in *; subst; unfold SetActiveCheckRun; unfold_monad; simpl;
    unfold head_ref, latest_named in Hhost; rewrite Hhost; simpl;
    destruct (github.ListCheckRunsResults.CheckRuns res) as [|first rest]; simpl.
  - split; [left; reflexivity | reflexivity].
  - destruct (decide _) as [E|E]; simpl.
    + split; [discriminate|].
      intros [?|(f & t & [= <- <-] & Hne)]; congruence.
    + split; [|reflexivity]. intros _. right. eauto.
  - intros H; exfalso; apply H; reflexivity.
  - destruct (decide _) as [E|E]; simpl.
    + intros _. eauto.
    + intros H; exfalso; apply H; reflexivity.
Qed.

(** ** Construction and authentication *)

Lemma fetch_reached_app xs ys :
  fetch_reached (xs ++ ys) = fetch_reached xs || fetch_reached ys.
Proof. apply existsb_app. Qed.

Lemma new_calls_app w w' calls :
  trace w' = trace w ++ calls -> new_calls w w' = calls.
Proof. intros E. unfold new_calls. rewrite E. apply drop_app_length. Qed.

(** The shared tail either stops before the pull-request fetch, with an
    error and the receiver untouched or with a panic, or makes the fetch its
    last call, with the client installed and the fetch's answer stored and
    returned.  It never writes the table nor an identity field. *)
Lemma authenticate_cases h region keyID s :
  let r := authenticate h region keyID s in
  tables (world (snd r)) = tables (world s) /\
  same_identity (self (snd r)) (self s) /\
  exists calls,
    trace (world (snd r)) = trace (world s) ++ calls /\
    ((fetch_reached calls = false /\
      ((exists e, fst r = Returns (Some e) /\ self (snd r) = self s) \/
       (exists p, fst r = Panics p))) \/
     (fetch_reached calls = true /\
      exists hist owner repo num tr,
        trace (world (snd r)) = hist ++ [EvPullRequestsGet owner repo num] /\
        self (snd r) =
          set_PR (fst (PullRequests_Get h hist owner repo num))
            (set_Client (Some (github_client.NewClient tr)) (self s)) /\
        fst r = Returns (snd (PullRequests_Get h hist owner repo num)))).
Proof.
  destruct s as [gh w]. unfold authenticate, Ssm_GetParameter, ghapp_New_call.
  unfold_monad. simpl.
  assert (Hid : same_identity gh gh) by (repeat split).
  destruct (ssm_GetParameter h (trace w) _ keyID) as [pk|e]; simpl.
  2: { do 2 (split; [done|]). eexists; split; [reflexivity|]. left. eauto. }
  unfold GetAppIntID, GetAppInstID, GetPrNum.
  destruct (atoi_or_panic (IntegrationID gh)) as [i|p]; simpl.
  2: { do 2 (split; [done|]). eexists; split; [reflexivity|]. left. eauto. }
  destruct (atoi_or_panic (InstallationID gh)) as [j|p]; simpl.
  2: { do 2 (split; [done|]). eexists; split; [reflexivity|]. left. eauto. }
  destruct (ghapp_New h _ i j pk) as [e|]; simpl.
  { do 2 (split; [done|]). eexists; split; [rewrite <- app_assoc; reflexivity|].
    left. eauto. }
  destruct (RepoOwner gh) as [o|]; simpl.
  2: { do 2 (split; [done|]). eexists; split; [rewrite <- app_assoc; reflexivity|].
       left. eauto. }
  destruct (RepoName gh) as [rp|]; simpl.
  2: { do 2 (split; [done|]). eexists; split; [rewrite <- app_assoc; reflexivity|].
       left. eauto. }
  destruct (atoi_or_panic (PrNum gh)) as [n|p]; simpl.
  2: { do 2 (split; [done|]). eexists; split; [rewrite <- app_assoc; reflexivity|].
       left. eauto. }
  do 2 (split; [done|]).
  eexists; split; [rewrite <- !app_assoc; reflexivity|].
  right. split; [reflexivity|].
  do 5 eexists. split; [reflexivity|]. split; reflexivity.
Qed.

Lemma authenticate_outcome h region keyID gh0 w0 s pre :
  trace (world s) = trace w0 ++ pre ->
  fetch_reached pre = false ->
  Client (self s) = Client gh0 ->
  construction_outcome h gh0
    (new_calls w0 (world (snd (authenticate h region keyID s))))
    (authenticate h region keyID s).
Proof.
  intros Ht Hpre Hc.
  destruct (authenticate_cases h region keyID s) as (_ & _ & calls & Hcalls & Hcase).
  rewrite Ht, <- app_assoc in Hcalls.
  unfold construction_outcome, result, receiver, world_after.
  rewrite (new_calls_app _ _ _ Hcalls), fetch_reached_app, Hpre. simpl.
  destruct Hcase as [(Hf & Hres) | (Hf & hist & o & rp & n & tr & Hlast & Hself & Hres)];
    rewrite Hf; split; try discriminate.
  - intros _. destruct Hres as [(e & -> & Hself) | (p & ->)].
    + split; [discriminate|]. intros _ _. rewrite Hself. exact Hc.
    + split; discriminate.
  - intros _. exists hist, o, rp, n, tr. rewrite Hself. auto.
Qed.

(** C3.  Whatever the arguments, the receiver and the host, the first call
    [ConfigFromScratch] makes is the write of the identity/config record to
    the state table, with [IntegrationType] set to the literal [GitHub]; so
    every authentication step (secret retrieval, app authentication,
    pull-request fetch) comes after it.  If the write fails, it is the only
    call made: the secret is not retrieved, no client is built, the [Client]
    field is what it was, and the error is returned. *)
Theorem ConfigFromScratch_writes_state_first
    (h : Host) (gh : Integration) (w : World)
    (awsRegion privateKeyID repoOwner repoName checkRunName
       installationID integrationID prNum : string) :
  let r := run (ConfigFromScratch h awsRegion privateKeyID repoOwner repoName
                  checkRunName installationID integrationID prNum) gh w in
  let tbl := runsimaws.DdbTable_Config awsRegion primaryKey tableName in
  let item := scratch_record repoOwner repoName checkRunName
                installationID integrationID prNum in
  exists rest,
    trace (world_after r) = trace w ++ EvPutState tbl item :: rest /\
    (forall pre ev post,
       EvPutState tbl item :: rest = pre ++ ev :: post ->
       is_auth_step ev = true -> EvPutState tbl item ∈ pre) /\
    (forall e, ddb_fault h (trace w) = Some e ->
       rest = [] /\
       result r = Returns (Some e) /\
       Client (receiver r) = Client gh /\
       tables (world_after r) = tables w).
Proof.
  intros r tbl item. subst r.
  unfold ConfigFromScratch, DdbTable_PutState. unfold_monad. simpl.
  change (marshal _) with item. fold tbl.
  assert (Hbefore : forall rest pre ev post,
             EvPutState tbl item :: rest = pre ++ ev :: post ->
             is_auth_step ev = true -> EvPutState tbl item ∈ pre).
  { intros rest [|x pre] ev post E Hauth; simpl in E.
    - injection E as <- _. discriminate.
    - injection E as <- _. left. }
  destruct (ddb_fault h (trace w)) as [e|] eqn:Hfault; simpl.
  - exists []. split; [reflexivity|]. split; [apply Hbefore|].
    intros e' [= <-]. auto.
  - assert (Hk : item !! primaryKey = Some "GitHub") by apply lookup_insert_eq.
    rewrite Hk. simpl.
    match goal with
    | |- context [authenticate h awsRegion privateKeyID ?s] =>
        destruct (authenticate_cases h awsRegion privateKeyID s)
          as (_ & _ & calls & Hcalls & _)
    end.
    simpl in Hcalls. rewrite <- app_assoc in Hcalls. simpl in Hcalls.
    exists calls. split; [exact Hcalls|]. split; [apply Hbefore|]. discriminate.
Qed.

(** Both constructors, seen through the calls they made: a run that stops
    before the pull-request fetch does not succeed and, when it returns an
    error, leaves [Client] as it was; a run that reaches the fetch has
    installed the client and returns the fetch's answer. *)
Lemma construction_stops_or_fetches
    (h : Host) (gh : Integration) (w : World) :
  (forall awsRegion ghAccessTokenID,
     let r := run (ConfigFromState h awsRegion ghAccessTokenID) gh w in
     construction_outcome h gh (new_calls w (world_after r)) r) /\
  (forall awsRegion privateKeyID repoOwner repoName checkRunName
          installationID integrationID prNum,
     let r := run (ConfigFromScratch h awsRegion privateKeyID repoOwner repoName
                     checkRunName installationID integrationID prNum) gh w in
     construction_outcome h gh (new_calls w (world_after r)) r).
Proof.
  split.
  - intros region keyID r. subst r.
    unfold ConfigFromState, DdbTable_GetState. unfold_monad. simpl.
    set (tbl := runsimaws.DdbTable_Config region primaryKey tableName).
    destruct (ddb_fault h (trace w)) as [e|]; simpl.
    { rewrite (new_calls_app w _ [EvGetState tbl "GitHub"]) by reflexivity.
      split; [|discriminate]. intros _. split; [discriminate | reflexivity]. }
    destruct (tables w !! _) as [item|]; simpl.
    2: { rewrite (new_calls_app w _ [EvGetState tbl "GitHub"]) by reflexivity.
         split; [|discriminate]. intros _. split; [discriminate | reflexivity]. }
    destruct (ValidateState _) as [e|]; simpl.
    { rewrite (new_calls_app w _ [EvGetState tbl "GitHub"]) by reflexivity.
      split; [|discriminate]. intros _. split; [discriminate | reflexivity]. }
    apply authenticate_outcome with (pre := [EvGetState tbl "GitHub"]); reflexivity.
  - intros region keyID owner repo name inst int pr r. subst r.
    unfold ConfigFromScratch, DdbTable_PutState. unfold_monad. simpl.
    set (tbl := runsimaws.DdbTable_Config region primaryKey tableName).
    set (item := marshal _).
    destruct (ddb_fault h (trace w)) as [e|]; simpl.
    { rewrite (new_calls_app w _ [EvPutState tbl item]) by reflexivity.
      split; [|discriminate]. intros _. split; [discriminate | reflexivity]. }
    assert (Hk : item !! primaryKey = Some "GitHub") by apply lookup_insert_eq.
    rewrite Hk. simpl.
    apply authenticate_outcome with (pre := [EvPutState tbl item]); reflexivity.
Qed.

(** The shared tail, step by step. *)
Lemma authenticate_steps h region keyID gh0 s :
  Client (self s) = Client gh0 ->
  authentication_steps h region keyID gh0 (self s) (trace (world s))
    (authenticate h region keyID s).
Proof.
  intros Hc. destruct s as [gh w]. simpl in Hc.
  unfold authentication_steps, fails_without_client, result, receiver. simpl.
  split; [|split].
  - intros e Hs.
    unfold authenticate, Ssm_GetParameter, bind, call, ret; simpl.
    rewrite Hs; simpl. split; [reflexivity | exact Hc].
  - intros key intID instID e Hs Hi Hj Ha.
    unfold authenticate, Ssm_GetParameter, ghapp_New_call, bind, call, eval, ret; simpl in *.
    rewrite Hs; simpl. rewrite Hi; simpl. rewrite Hj; simpl. rewrite Ha; simpl.
    split; [reflexivity | exact Hc].
  - intros key intID instID owner repo num e Hs Hi Hj Ha Ho Hr Hn He.
    unfold authenticate, Ssm_GetParameter, ghapp_New_call, bind, call, eval, ret,
      modify, read, deref; simpl in *.
    rewrite Hs; simpl. rewrite Hi; simpl. rewrite Hj; simpl. rewrite Ha; simpl.
    unfold GetOwner, GetRepo, GetPrNum in *; simpl in *.
    rewrite Ho; simpl. rewrite Hr; simpl. rewrite Hn; simpl.
    rewrite He. split; reflexivity.
Qed.

(** C4 (as amended).  For both construction entry points, every step that
    fails before the pull-request fetch ends the call with that step's error
    and leaves the [Client] field as it was before the call: the state load
    of [ConfigFromState] (store fault or no record), its validation, the
    state write of [ConfigFromScratch], the secret retrieval and the app
    authentication.  When the pull-request fetch fails, the call returns the
    fetch's error as well, but the client built from the identifiers and the
    secret has been installed and stays installed.  Whatever the host does, a
    call that makes no fetch does not succeed. *)
Theorem construction_failure_and_client
    (h : Host) (gh : Integration) (w : World) :
  (forall awsRegion ghAccessTokenID,
     let tbl := runsimaws.DdbTable_Config awsRegion primaryKey tableName in
     let r := run (ConfigFromState h awsRegion ghAccessTokenID) gh w in
     construction_outcome h gh (new_calls w (world_after r)) r /\
     (forall e, ddb_fault h (trace w) = Some e -> fails_without_client gh e r) /\
     (ddb_fault h (trace w) = None ->
      tables w !! state_key awsRegion = None ->
      exists e, fails_without_client gh e r) /\
     (forall item,
        ddb_fault h (trace w) = None ->
        tables w !! state_key awsRegion = Some item ->
        (forall e, ValidateState (unmarshal item gh) = Some e ->
                   fails_without_client gh e r) /\
        (ValidateState (unmarshal item gh) = None ->
         authentication_steps h awsRegion ghAccessTokenID gh (unmarshal item gh)
           (trace w ++ [EvGetState tbl "GitHub"]) r))) /\
  (forall awsRegion privateKeyID repoOwner repoName checkRunName
          installationID integrationID prNum,
     let tbl := runsimaws.DdbTable_Config awsRegion primaryKey tableName in
     let item := scratch_record repoOwner repoName checkRunName
                   installationID integrationID prNum in
     let r := run (ConfigFromScratch h awsRegion privateKeyID repoOwner repoName
                     checkRunName installationID integrationID prNum) gh w in
     construction_outcome h gh (new_calls w (world_after r)) r /\
     (forall e, ddb_fault h (trace w) = Some e -> fails_without_client gh e r) /\
     (ddb_fault h (trace w) = None ->
      authentication_steps h awsRegion privateKeyID gh (unmarshal item gh)
        (trace w ++ [EvPutState tbl item]) r)).
Proof.
  destruct (construction_stops_or_fetches h gh w) as (Hstate & Hscratch).
  split.
  - intros region keyID tbl r.
    split; [apply Hstate|]. subst r.
    unfold ConfigFromState, DdbTable_GetState. unfold_monad. simpl. fold tbl.
    split; [|split].
    + intros e He. rewrite He. simpl. split; reflexivity.
    + intros Hf Hnone. rewrite Hf. simpl.
      unfold state_key in Hnone. rewrite Hnone. simpl.
      eexists. split; reflexivity.
    + intros item Hf Hitem. rewrite Hf. simpl.
      unfold state_key in Hitem. rewrite Hitem. simpl.
      split.
      * intros e Hv.
        assert (Hv' : ValidateState (unmarshal item (set_State (Some tbl) gh)) = Some e)
          by exact Hv.
        rewrite Hv'. simpl. split; reflexivity.
      * intros Hv.
        assert (Hv' : ValidateState (unmarshal item (set_State (Some tbl) gh)) = None)
          by exact Hv.
        rewrite Hv'. simpl.
        match goal with
        | |- context [authenticate h region keyID ?s] =>
            exact (authenticate_steps h region keyID gh s eq_refl)
        end.
  - intros region keyID owner repo name inst int pr tbl item r.
    split; [apply Hscratch|]. subst r.
    unfold ConfigFromScratch, DdbTable_PutState. unfold_monad. simpl.
    change (marshal _) with item. fold tbl.
    split.
    + intros e He. rewrite He. simpl. split; reflexivity.
    + intros Hf. rewrite Hf. simpl.
      assert (Hk : item !! primaryKey = Some "GitHub") by apply lookup_insert_eq.
      rewrite Hk. simpl.
      match goal with
      | |- context [authenticate h region keyID ?s] =>
          pose proof (authenticate_steps h region keyID gh s eq_refl) as Hsteps
      end.
      simpl in Hsteps.
      assert (U3 : InstallationID (unmarshal item gh) = Some inst)
        by (unfold unmarshal, item, scratch_record; simpl; by simplify_map_eq).
      assert (U4 : IntegrationID (unmarshal item gh) = Some int)
        by (unfold unmarshal, item, scratch_record; simpl; by simplify_map_eq).
      assert (U5 : RepoOwner (unmarshal item gh) = Some owner)
        by (unfold unmarshal, item, scratch_record; simpl; by simplify_map_eq).
      assert (U6 : RepoName (unmarshal item gh) = Some repo)
        by (unfold unmarshal, item, scratch_record; simpl; by simplify_map_eq).
      assert (U7 : PrNum (unmarshal item gh) = Some pr)
        by (unfold unmarshal, item, scratch_record; simpl; by simplify_map_eq).
      unfold authentication_steps in *.
      unfold GetAppIntID, GetAppInstID, GetOwner, GetRepo, GetPrNum in *.
      rewrite U3, U4, U5, U6, U7. simpl in *. exact Hsteps.
Qed.

(** ** Check-run updates *)

(** C5.  On an authenticated receiver, [ConcludeCheckRun summary conclusion]
    makes exactly one call, an update of the active check run, whose payload
    has status [completed], a completion timestamp that is set, the given
    conclusion as it was passed, and an output titled [Details] carrying the
    given summary as it was passed. *)
Theorem ConcludeCheckRun_payload
    (h : Host) (gh : Integration) (w : World)
    (c : github_client.Client) (owner repo : string)
    (summary conclusion : option string) :
  Client gh = Some c ->
  RepoOwner gh = Some owner ->
  RepoName gh = Some repo ->
  let r := run (ConcludeCheckRun h summary conclusion) gh w in
  exists opt,
    trace (world_after r) =
      trace w ++ [EvUpdateCheckRun owner repo (github.CheckRun.GetID (ActiveCheckRun gh)) opt] /\
    github.UpdateCheckRunOptions.Name opt = github.CheckRun.GetName (ActiveCheckRun gh) /\
    github.UpdateCheckRunOptions.Status opt = Some "completed" /\
    is_Some (github.UpdateCheckRunOptions.CompletedAt opt) /\
    github.UpdateCheckRunOptions.Conclusion opt = conclusion /\
    github.UpdateCheckRunOptions.Output opt =
      Some {| github.CheckRunOutput.Title := Some "Details";
              github.CheckRunOutput.Summary := summary |}.
Proof.
  intros Hc Ho Hr r. subst r.
  destruct gh as [c' pr a st it crn inst int ro rn pn]; simpl in *; subst.
  unfold ConcludeCheckRun, send_update. unfold_monad. simpl.
  eexists. split; [reflexivity|]. simpl. repeat split; eauto.
Qed.

(** C6.  On an authenticated receiver whose pull request has a head,
    [UpdateCheckRunStatus status summary] makes exactly one call, an update of
    the active check run, whose payload carries the pull request's head
    branch and head SHA as they are and the given status; with a summary the
    output is that summary under the title [Details], without one the
    payload has no output. *)
Theorem UpdateCheckRunStatus_payload
    (h : Host) (gh : Integration) (w : World)
    (c : github_client.Client) (owner repo : string)
    (pr : github.PullRequest.t) (head : github.PullRequestBranch.t)
    (status summary : option string) :
  Client gh = Some c ->
  RepoOwner gh = Some owner ->
  RepoName gh = Some repo ->
  PR gh = Some pr ->
  github.PullRequest.Head pr = Some head ->
  let r := run (UpdateCheckRunStatus h status summary) gh w in
  exists opt,
    trace (world_after r) =
      trace w ++ [EvUpdateCheckRun owner repo (github.CheckRun.GetID (ActiveCheckRun gh)) opt] /\
    github.UpdateCheckRunOptions.Name opt = github.CheckRun.GetName (ActiveCheckRun gh) /\
    github.UpdateCheckRunOptions.HeadBranch opt = github.PullRequestBranch.Ref head /\
    github.UpdateCheckRunOptions.HeadSHA opt = github.PullRequestBranch.SHA head /\
    github.UpdateCheckRunOptions.Status opt = status /\
    (forall text, summary = Some text ->
       github.UpdateCheckRunOptions.Output opt = Some (details (Some text))) /\
    (summary = None -> github.UpdateCheckRunOptions.Output opt = None).
Proof.
  intros Hc Ho Hr Hp Hh r. subst r.
  destruct gh as [c' pr' a st it crn inst int ro rn pn]; simpl in *; subst.
  unfold UpdateCheckRunStatus, send_update. unfold_monad. simpl.
  rewrite Hh. simpl.
  eexists. split; [reflexivity|]. simpl. repeat split.
  - intros text ->. reflexivity.
  - intros ->. reflexivity.
Qed.

(** C10.  [UpdateActiveCheckRun], [UpdateCheckRunStatus] and
    [ConcludeCheckRun] each make one call and store whatever check run that
    call returned in [ActiveCheckRun], returning the call's error: when the
    call fails, the previous [ActiveCheckRun] is not kept but replaced by the
    value returned alongside the error, which may be nil. *)
Theorem failed_update_overwrites_ActiveCheckRun
    (h : Host) (gh : Integration) (w : World)
    (c : github_client.Client) (owner repo : string) :
  Client gh = Some c ->
  RepoOwner gh = Some owner ->
  RepoName gh = Some repo ->
  let stored_answer (r : outcome (option error) * Session) :=
    exists ev returned err,
      trace (world_after r) = trace w ++ [ev] /\
      answered_by h (trace w) ev = Some (returned, err) /\
      result r = Returns err /\
      ActiveCheckRun (receiver r) = returned in
  stored_answer (run (UpdateActiveCheckRun h) gh w) /\
  (forall summary conclusion,
     stored_answer (run (ConcludeCheckRun h summary conclusion) gh w)) /\
  (forall status summary pr head,
     PR gh = Some pr -> github.PullRequest.Head pr = Some head ->
     stored_answer (run (UpdateCheckRunStatus h status summary) gh w)).
Proof.
  intros Hc Ho Hr stored_answer. subst stored_answer.
  destruct gh as [c' pr' a st it crn inst int ro rn pn]; simpl in *; subst.
  split; [|split].
  - unfold UpdateActiveCheckRun. unfold_monad. simpl.
    eexists _, _, _. split; [reflexivity|]. simpl.
    split; [f_equal; apply surjective_pairing|]. split; reflexivity.
  - intros summary conclusion.
    unfold ConcludeCheckRun, send_update. unfold_monad. simpl.
    eexists _, _, _. split; [reflexivity|]. simpl.
    split; [f_equal; apply surjective_pairing|]. split; reflexivity.
  - intros status summary pr head -> Hh.
    unfold UpdateCheckRunStatus, send_update. unfold_monad. simpl.
    rewrite Hh. simpl.
    eexists _, _, _. split; [reflexivity|]. simpl.
    split; [f_equal; apply surjective_pairing|]. split; reflexivity.
Qed.

(** ** Frame *)

(** C9 (as amended).  [SetActiveCheckRun], [UpdateActiveCheckRun],
    [UpdateCheckRunStatus] and [ConcludeCheckRun] change nothing of the
    receiver but [ActiveCheckRun].  [CreateNewCheckRun] leaves the client,
    the pull request, the table handle and every identity/config field other
    than [CheckRunName] unchanged; [CheckRunName] is unchanged when the call
    does not succeed, and on success it is replaced by the name of the check
    run the host returned, which is the new [ActiveCheckRun]. *)
Theorem check_run_operations_frame (h : Host) (gh : Integration) (w : World) :
  only_ActiveCheckRun_changed gh (receiver (run (SetActiveCheckRun h) gh w)) /\
  only_ActiveCheckRun_changed gh (receiver (run (UpdateActiveCheckRun h) gh w)) /\
  (forall status summary,
     only_ActiveCheckRun_changed gh
       (receiver (run (UpdateCheckRunStatus h status summary) gh w))) /\
  (forall summary conclusion,
     only_ActiveCheckRun_changed gh
       (receiver (run (ConcludeCheckRun h summary conclusion) gh w))) /\
  (let r := run (CreateNewCheckRun h) gh w in
   same_session_and_ids (receiver r) gh /\
   (result r <> Returns None -> CheckRunName (receiver r) = CheckRunName gh) /\
   (result r = Returns None ->
      exists cr, ActiveCheckRun (receiver r) = Some cr /\
                 CheckRunName (receiver r) = github.CheckRun.Name cr)).
Proof.
  split; [|split; [|split; [|split; [|split; [|split]]]]].
  - unfold SetActiveCheckRun. frame_by_cases gh.
  - unfold UpdateActiveCheckRun. frame_by_cases gh.
  - intros status summary. unfold UpdateCheckRunStatus, send_update. frame_by_cases gh.
  - intros summary conclusion. unfold ConcludeCheckRun, send_update. frame_by_cases gh.
  - unfold CreateNewCheckRun. frame_by_cases gh.
  - unfold CreateNewCheckRun. frame_by_cases gh.
  - unfold CreateNewCheckRun. frame_by_cases gh.
    intros _. subst. eauto.
Qed.

(** ** Persistence round trip *)

Lemma authenticate_keeps_ActiveCheckRun h region keyID s :
  ActiveCheckRun (self (snd (authenticate h region keyID s))) = ActiveCheckRun (self s).
Proof.
  destruct (authenticate_cases h region keyID s)
    as (_ & _ & calls & _ & [(_ & Hres) | (_ & hist & o & rp & n & tr & _ & -> & _)]);
    [|reflexivity].
  destruct Hres as [(e & _ & ->) | (p & Hp)]; [reflexivity|].
  destruct s as [gh w]. revert Hp.
  unfold authenticate, Ssm_GetParameter, ghapp_New_call, GetAppIntID, GetAppInstID, GetPrNum.
  unfold_monad. simpl. case_matches; reflexivity.
Qed.

Lemma dom_put_attr name v (item : Item) (names : gset string) :
  name ∈ names -> dom item ⊆ names -> dom (put_attr name v item) ⊆ names.
Proof.
  intros Hn Hd. destruct v as [x|]; simpl; [|exact Hd].
  rewrite dom_insert_L. apply union_least; [|exact Hd].
  apply singleton_subseteq_l, Hn.
Qed.

Lemma marshal_attributes gh : dom (marshal gh) ⊆ persisted_attributes.
Proof.
  unfold marshal.
  repeat (apply dom_put_attr; [unfold persisted_attributes; set_solver|]).
  rewrite dom_empty_L. apply empty_subseteq.
Qed.

Lemma unmarshal_scratch_record owner repo name inst int pr gh :
  let gh' := unmarshal (scratch_record owner repo name inst int pr) gh in
  IntegrationType gh' = Some "GitHub" /\
  CheckRunName gh' = Some name /\
  InstallationID gh' = Some inst /\
  IntegrationID gh' = Some int /\
  RepoOwner gh' = Some owner /\
  RepoName gh' = Some repo /\
  PrNum gh' = Some pr.
Proof.
  unfold unmarshal, scratch_record; simpl.
  repeat split; by simplify_map_eq.
Qed.

(** After a write that the store accepts, the table holds the record of the
    arguments under the fixed key, whatever authentication does next. *)
Lemma ConfigFromScratch_stores h gh w region keyID owner repo name inst int pr :
  ddb_fault h (trace w) = None ->
  tables (world_after (run (ConfigFromScratch h region keyID owner repo name inst int pr) gh w))
  = <[state_key region := scratch_record owner repo name inst int pr]> (tables w).
Proof.
  intros Hfault.
  unfold ConfigFromScratch, DdbTable_PutState. unfold_monad. simpl.
  change (marshal _) with (scratch_record owner repo name inst int pr).
  rewrite Hfault. simpl.
  assert (Hk : scratch_record owner repo name inst int pr !! primaryKey = Some "GitHub")
    by apply lookup_insert_eq.
  rewrite Hk. simpl.
  match goal with
  | |- context [authenticate h region keyID ?s] =>
      destruct (authenticate_cases h region keyID s) as (-> & _)
  end.
  reflexivity.
Qed.

(** A load that the store serves decodes the stored record into the identity
    fields, and nothing later in [ConfigFromState] writes them again. *)
Lemma ConfigFromState_loads h gh w region keyID item :
  ddb_fault h (trace w) = None ->
  tables w !! state_key region = Some item ->
  let r := run (ConfigFromState h region keyID) gh w in
  same_identity (receiver r) (unmarshal item gh) /\
  ActiveCheckRun (receiver r) = ActiveCheckRun gh.
Proof.
  intros Hfault Hitem r. subst r.
  unfold ConfigFromState, DdbTable_GetState. unfold_monad. simpl.
  rewrite Hfault. simpl.
  unfold state_key in Hitem. rewrite Hitem. simpl.
  destruct (ValidateState _) as [e|]; simpl.
  - split; [repeat split | reflexivity].
  - match goal with
    | |- context [authenticate h region keyID ?s] =>
        destruct (authenticate_cases h region keyID s) as (_ & Hid & _);
        pose proof (authenticate_keeps_ActiveCheckRun h region keyID s) as Ha
    end.
    split; [exact Hid | exact Ha].
Qed.

(** C7.  If the store accepts the write of [ConfigFromScratch] and later
    serves the load of [ConfigFromState] for the same region (hence the same
    table and key) from the same table contents, the identity/config fields
    of the resumed receiver are the values that were supplied to
    [ConfigFromScratch], with [IntegrationType] the literal [GitHub].  The
    stored record is the one of the arguments, carries none but the seven
    identity/config attributes whatever the first receiver held, and the
    resumed receiver's [ActiveCheckRun] is not taken from the store. *)
Theorem ConfigFromScratch_ConfigFromState_round_trip
    (h1 h2 : Host) (gh1 gh2 : Integration) (w1 w2 : World)
    (awsRegion privateKeyID ghAccessTokenID : string)
    (repoOwner repoName checkRunName installationID integrationID prNum : string) :
  let written := run (ConfigFromScratch h1 awsRegion privateKeyID repoOwner repoName
                        checkRunName installationID integrationID prNum) gh1 w1 in
  let resumed := run (ConfigFromState h2 awsRegion ghAccessTokenID) gh2 w2 in
  ddb_fault h1 (trace w1) = None ->
  tables w2 = tables (world_after written) ->
  ddb_fault h2 (trace w2) = None ->
  (IntegrationType (receiver resumed) = Some "GitHub" /\
   CheckRunName (receiver resumed) = Some checkRunName /\
   InstallationID (receiver resumed) = Some installationID /\
   IntegrationID (receiver resumed) = Some integrationID /\
   RepoOwner (receiver resumed) = Some repoOwner /\
   RepoName (receiver resumed) = Some repoName /\
   PrNum (receiver resumed) = Some prNum) /\
  (exists item,
     tables (world_after written) !! state_key awsRegion = Some item /\
     item = scratch_record repoOwner repoName checkRunName
              installationID integrationID prNum /\
     dom item ⊆ persisted_attributes) /\
  ActiveCheckRun (receiver resumed) = ActiveCheckRun gh2.
Proof.
  intros written resumed Hput Hsame Hget.
  pose proof (ConfigFromScratch_stores h1 gh1 w1 awsRegion privateKeyID repoOwner repoName
                checkRunName installationID integrationID prNum Hput) as Hstored.
  fold written in Hstored.
  set (item := scratch_record repoOwner repoName checkRunName
                 installationID integrationID prNum) in *.
  assert (Hitem : tables w2 !! state_key awsRegion = Some item).
  { rewrite Hsame, Hstored. apply lookup_insert_eq. }
  destruct (ConfigFromState_loads h2 gh2 w2 awsRegion ghAccessTokenID item Hget Hitem)
    as (Hid & Ha).
  fold resumed in Hid, Ha.
  destruct (unmarshal_scratch_record repoOwner repoName checkRunName
              installationID integrationID prNum gh2)
    as (U1 & U2 & U3 & U4 & U5 & U6 & U7).
  fold item in U1, U2, U3, U4, U5, U6, U7.
  destruct Hid as (I1 & I2 & I3 & I4 & I5 & I6 & I7).
  split; [|split].
  - repeat split; congruence.
  - exists item. split; [rewrite Hstored; apply lookup_insert_eq|].
    split; [reflexivity|].
    change item with (marshal
      {| Client := None; PR := None; ActiveCheckRun := None; State := None;
         IntegrationType := Some "GitHub"; CheckRunName := Some checkRunName;
         InstallationID := Some installationID; IntegrationID := Some integrationID;
         RepoOwner := Some repoOwner; RepoName := Some repoName; PrNum := Some prNum |}).
    apply marshal_attributes.
  - exact Ha.
Qed.

(** ** Numeric accessors *)

Lemma digit_val_range c : strconv.is_digit c = true -> 0 <= strconv.digit_val c <= 9.
Proof.
  unfold strconv.is_digit, strconv.digit_val. intros H.
  apply andb_prop in H as [H1 H2].
  apply N.leb_le in H1, H2. lia.
Qed.

Lemma digits_value_ge s : forall acc m, 0 <= acc -> digits_value s acc = Some m -> acc <= m.
Proof.
  induction s as [|c rest IH]; simpl; intros acc m Hacc H.
  - injection H as <-. lia.
  - destruct (strconv.is_digit c) eqn:Hd; [|discriminate].
    pose proof (digit_val_range c Hd).
    apply IH in H; lia.
Qed.

(** The loop of [ParseUint] accepts exactly the digit runs whose value fits
    64 bits, with that value. *)
Lemma ParseUint_loop_inl s : forall acc m,
  0 <= acc <= strconv.maxUint64 ->
  strconv.ParseUint_loop s acc = inl m <->
  digits_value s acc = Some m /\ m <= strconv.maxUint64.
Proof.
  induction s as [|c rest IH]; simpl; intros acc m Hacc.
  - split.
    + intros [= <-]. split; [reflexivity | lia].
    + intros [[= <-] _]. reflexivity.
  - destruct (strconv.is_digit c) eqn:Hd.
    2: { split; [discriminate | intros [? _]; discriminate]. }
    pose proof (digit_val_range c Hd) as Hr.
    destruct (Z.ltb_spec strconv.maxUint64 (acc * 10 + strconv.digit_val c)) as [Hlt|Hle].
    + split; [discriminate|]. intros [Hv Hm].
      apply digits_value_ge in Hv; lia.
    + apply IH. lia.
Qed.

Lemma ParseUint_inl s m :
  s <> EmptyString ->
  strconv.ParseUint s = inl m <-> digits_value s 0 = Some m /\ m <= strconv.maxUint64.
Proof.
  intros Hs. destruct s as [|c rest]; [congruence|].
  unfold strconv.ParseUint. apply ParseUint_loop_inl.
  unfold strconv.maxUint64. lia.
Qed.

Lemma digits_value_nonneg s m : digits_value s 0 = Some m -> 0 <= m.
Proof. apply digits_value_ge. lia. Qed.

(** [Atoi] succeeds with [n] exactly on the strings that parse as [n]. *)
Lemma Atoi_inl_iff s n : strconv.Atoi s = inl n <-> parses_as_int s n.
Proof.
  unfold strconv.Atoi, parses_as_int.
  assert (Hcut : 2 ^ (strconv.intSize - 1) = 2 ^ 63) by reflexivity.
  assert (Hmax : strconv.maxUint64 = 2 ^ 64 - 1) by reflexivity.
  destruct s as [|c rest]; simpl.
  { split; [discriminate | intros [? _]; discriminate]. }
  destruct (Ascii.eqb c "+") eqn:Hplus; [|destruct (Ascii.eqb c "-") eqn:Hminus].
  - (* "+" digits *)
    destruct rest as [|d rest'].
    { simpl. split; [discriminate | intros [? _]; discriminate]. }
    set (body := String d rest') in *.
    assert (Hne : body <> EmptyString) by discriminate.
    destruct (strconv.ParseUint body) as [un|k] eqn:Hp.
    + apply ParseUint_inl in Hp as [Hv Hm]; [|exact Hne].
      pose proof (digits_value_nonneg _ _ Hv).
      rewrite Hv, Hcut. simpl.
      destruct (Z.leb_spec (2 ^ 63) un).
      * split; [discriminate|]. intros [[= <-] ?]. lia.
      * split; [intros [= <-]; split; [reflexivity | lia] | intros [[= <-] _]; reflexivity].
    + split; [discriminate|]. intros [Hv Hr].
      assert (strconv.ParseUint body = inl n) as Hc.
      { apply ParseUint_inl; [exact Hne|]. split; [exact Hv | lia]. }
      congruence.
  - (* "-" digits *)
    destruct rest as [|d rest'].
    { simpl. split; [discriminate | intros [? _]; discriminate]. }
    set (body := String d rest') in *.
    assert (Hne : body <> EmptyString) by discriminate.
    destruct (strconv.ParseUint body) as [un|k] eqn:Hp.
    + apply ParseUint_inl in Hp as [Hv Hm]; [|exact Hne].
      pose proof (digits_value_nonneg _ _ Hv).
      rewrite Hv, Hcut. simpl.
      destruct (Z.ltb_spec (2 ^ 63) un).
      * split; [discriminate|]. intros [[= <-] ?]. lia.
      * split; [intros [= <-]; split; [reflexivity | lia] | intros [[= <-] _]; reflexivity].
    + split; [discriminate|]. intros [Hv Hr].
      destruct (digits_value body 0) as [un|] eqn:Hd; [|discriminate].
      simpl in Hv. injection Hv as <-.
      assert (strconv.ParseUint body = inl un) as Hc.
      { apply ParseUint_inl; [exact Hne|]. split; [exact Hd | lia]. }
      congruence.
  - (* digits *)
    set (body := String c rest) in *.
    assert (Hne : body <> EmptyString) by discriminate.
    change (if strconv.is_digit c
            then digits_value rest (0 * 10 + strconv.digit_val c) else None)
      with (digits_value body 0).
    destruct (strconv.ParseUint body) as [un|k] eqn:Hp.
    + apply ParseUint_inl in Hp as [Hv Hm]; [|exact Hne].
      pose proof (digits_value_nonneg _ _ Hv).
      rewrite Hv, Hcut. simpl.
      destruct (Z.leb_spec (2 ^ 63) un).
      * split; [discriminate|]. intros [[= <-] ?]. lia.
      * split; [intros [= <-]; split; [reflexivity | lia] | intros [[= <-] _]; reflexivity].
    + split; [discriminate|]. intros [Hv Hr].
      assert (strconv.ParseUint body = inl n) as Hc.
      { apply ParseUint_inl; [exact Hne|]. split; [exact Hv | lia]. }
      congruence.
Qed.

Lemma atoi_or_panic_parse_or_panic s stored :
  parse_or_panic s stored (atoi_or_panic stored).
Proof.
  intros ->. unfold atoi_or_panic.
  destruct (strconv.Atoi s) as [m|err] eqn:E.
  - apply Atoi_inl_iff in E. split; [|split].
    + intros n Hn. destruct E as [E _], Hn as [Hn _]. congruence.
    + intros Hno. exfalso. exact (Hno m E).
    + intros; discriminate.
  - split; [|split].
    + intros n Hn. apply Atoi_inl_iff in Hn. congruence.
    + intros _. eauto.
    + intros n Hn. apply Atoi_inl_iff in Hn. congruence.
Qed.

(** C8.  Whenever the stored identifier parses as an integer, [GetPrNum],
    [GetAppInstID] and [GetAppIntID] return that integer, and cannot panic;
    whenever it parses as no integer, they panic with the error of
    [strconv.Atoi] instead of returning one. *)
Theorem numeric_accessors_parse_or_panic (gh : Integration) (s : string) :
  parse_or_panic s (PrNum gh) (GetPrNum gh) /\
  parse_or_panic s (InstallationID gh) (GetAppInstID gh) /\
  parse_or_panic s (IntegrationID gh) (GetAppIntID gh).
Proof.
  unfold GetPrNum, GetAppInstID, GetAppIntID.
  split; [|split]; apply atoi_or_panic_parse_or_panic.
Qed.

(** * The properties at the fixtures *)

Lemma ValidateState_reports_first_missing_witness :
  (forall g, absent fixture_without_PrNum g = true <-> g = FPrNum) /\
  exists e, ValidateState fixture_without_PrNum = Some e /\
            forall g, names e g = true <-> g = FPrNum.
Proof.
  assert (H : forall g, absent fixture_without_PrNum g = true <-> g = FPrNum).
  { intros g; destruct g; vm_compute; split; congruence. }
  split; [exact H|].
  destruct (ValidateState_reports_first_missing fixture_without_PrNum) as (_ & _ & H3).
  exact (H3 FPrNum H).
Defined.

Lemma SetActiveCheckRun_first_unconcluded_witness :
  let gh := set_ActiveCheckRun None fixture_integration in
  let r := run (SetActiveCheckRun healthy_host) gh empty_world in
  result r = Returns None /\ ActiveCheckRun (receiver r) = Some (fixture_run "sim" None).
Proof.
  intros gh r.
  destruct (SetActiveCheckRun_first_unconcluded healthy_host gh empty_world
              fixture_client "cosmos" "tools" "sim" fixture_pr
              (fixture_list [Some (fixture_run "sim" None)])
              eq_refl eq_refl eq_refl eq_refl eq_refl eq_refl) as (_ & H & _).
  destruct H as (first & rest & Hruns & Hres & Ha).
  { vm_compute. discriminate. }
  simpl in Hruns. injection Hruns as <- <-. split; assumption.
Defined.

Lemma ConfigFromScratch_writes_state_first_witness :
  let r := fixture_scratch store_down_host in
  result r = Returns (Some (Remote "RequestError")) /\
  Client (receiver r) = None /\
  exists item,
    trace (world_after r) =
      [EvPutState (runsimaws.DdbTable_Config "us-east-1" primaryKey tableName) item] /\
    item !! "IntegrationType" = Some "GitHub".
Proof.
  intros r.
  destruct (ConfigFromScratch_writes_state_first store_down_host zero_Integration empty_world
              "us-east-1" "key-id" "cosmos" "tools" "sim" "2" "1" "7")
    as (rest & Ht & _ & Hfail).
  destruct (Hfail (Remote "RequestError") eq_refl) as (Hrest & Hres & Hc & _).
  rewrite Hrest in Ht.
  split; [exact Hres|]. split; [exact Hc|].
  eexists. split; [exact Ht|]. apply lookup_insert_eq.
Defined.

Lemma construction_failure_and_client_witness :
  let r := fixture_scratch secret_down_host in
  fetch_reached (new_calls empty_world (world_after r)) = false /\
  result r = Returns (Some (Remote "ParameterNotFound")) /\
  Client (receiver r) = None.
Proof.
  intros r.
  destruct (construction_failure_and_client secret_down_host zero_Integration empty_world)
    as (_ & H).
  specialize (H "us-east-1" "key-id" "cosmos" "tools" "sim" "2" "1" "7").
  destruct H as (_ & _ & Hsteps).
  destruct (Hsteps eq_refl) as (Hsecret & _).
  destruct (Hsecret (Remote "ParameterNotFound") eq_refl) as (Hr & Hc).
  split; [vm_compute; reflexivity|]. split; [exact Hr | exact Hc].
Defined.

(** C4, as the claim has it, fails: with a host on which only the
    pull-request fetch fails, both constructors return the fetch's error and
    leave a client installed on a receiver that had none. *)
Lemma failed_fetch_leaves_client_installed :
  let written := fixture_scratch fetch_fails_host in
  let resumed := run (ConfigFromState fetch_fails_host "us-east-1" "key-id")
                   zero_Integration (world_after written) in
  Client zero_Integration = None /\
  (result written = Returns (Some (Remote "404 Not Found")) /\
   Client (receiver written) <> None) /\
  (result resumed = Returns (Some (Remote "404 Not Found")) /\
   Client (receiver resumed) <> None).
Proof.
  vm_compute. repeat split; discriminate.
Qed.

Lemma ConcludeCheckRun_payload_witness :
  let r := run (ConcludeCheckRun healthy_host (Some "all simulations passed") (Some "success"))
             fixture_integration empty_world in
  exists opt,
    trace (world_after r) = [EvUpdateCheckRun "cosmos" "tools" 11 opt] /\
    github.UpdateCheckRunOptions.Status opt = Some "completed" /\
    github.UpdateCheckRunOptions.Conclusion opt = Some "success" /\
    github.UpdateCheckRunOptions.Output opt = Some (details (Some "all simulations passed")).
Proof.
  intros r.
  destruct (ConcludeCheckRun_payload healthy_host fixture_integration empty_world
              fixture_client "cosmos" "tools" (Some "all simulations passed") (Some "success")
              eq_refl eq_refl eq_refl) as (opt & Ht & _ & Hs & _ & Hc & Ho).
  exists opt. split; [exact Ht|]. split; [exact Hs|]. split; [exact Hc | exact Ho].
Defined.

Lemma UpdateCheckRunStatus_payload_witness :
  let r := run (UpdateCheckRunStatus healthy_host (Some "in_progress") None)
             fixture_integration empty_world in
  exists opt,
    trace (world_after r) = [EvUpdateCheckRun "cosmos" "tools" 11 opt] /\
    github.UpdateCheckRunOptions.HeadBranch opt = Some "feature" /\
    github.UpdateCheckRunOptions.HeadSHA opt = Some "0a1b2c3" /\
    github.UpdateCheckRunOptions.Status opt = Some "in_progress" /\
    github.UpdateCheckRunOptions.Output opt = None.
Proof.
  intros r.
  destruct (UpdateCheckRunStatus_payload healthy_host fixture_integration empty_world
              fixture_client "cosmos" "tools" fixture_pr fixture_head (Some "in_progress") None
              eq_refl eq_refl eq_refl eq_refl eq_refl)
    as (opt & Ht & _ & Hb & Hsha & Hs & _ & Hnone).
  exists opt. split; [exact Ht|]. split; [exact Hb|]. split; [exact Hsha|].
  split; [exact Hs | exact (Hnone eq_refl)].
Defined.

Lemma failed_update_overwrites_ActiveCheckRun_witness :
  let r := run (UpdateActiveCheckRun checks_down_host) fixture_integration empty_world in
  ActiveCheckRun fixture_integration = Some (fixture_run "sim" None) /\
  result r = Returns (Some (Remote "502 Bad Gateway")) /\
  ActiveCheckRun (receiver r) = None.
Proof.
  intros r.
  destruct (failed_update_overwrites_ActiveCheckRun checks_down_host fixture_integration
              empty_world fixture_client "cosmos" "tools" eq_refl eq_refl eq_refl)
    as (H & _).
  destruct H as (ev & returned & err & Ht & Hans & Hres & Ha).
  fold r in Ht, Hres, Ha.
  assert (Hev : ev = EvGetCheckRun "cosmos" "tools" 11).
  { vm_compute in Ht. injection Ht as <-. reflexivity. }
  rewrite Hev in Hans. vm_compute in Hans. injection Hans as <- <-.
  split; [reflexivity|]. split; [exact Hres | exact Ha].
Defined.

Lemma ConfigFromScratch_ConfigFromState_round_trip_witness :
  let written := fixture_scratch healthy_host in
  let resumed := run (ConfigFromState healthy_host "us-east-1" "key-id")
                   zero_Integration (world_after written) in
  RepoOwner (receiver resumed) = Some "cosmos" /\
  RepoName (receiver resumed) = Some "tools" /\
  PrNum (receiver resumed) = Some "7".
Proof.
  intros written resumed.
  destruct (ConfigFromScratch_ConfigFromState_round_trip healthy_host healthy_host
              zero_Integration zero_Integration empty_world (world_after written)
              "us-east-1" "key-id" "key-id" "cosmos" "tools" "sim" "2" "1" "7"
              eq_refl eq_refl eq_refl)
    as ((_ & _ & _ & _ & Ho & Hr & Hp) & _).
  split; [exact Ho|]. split; [exact Hr | exact Hp].
Defined.

Lemma numeric_accessors_parse_or_panic_witness :
  parses_as_int "7" 7 /\
  GetPrNum fixture_integration = Returns 7 /\
  (forall n, ~ parses_as_int "7a" n) /\
  exists err, GetPrNum (unmarshal {[ "PrNum" := "7a" ]} zero_Integration)
              = Panics (PanicError err).
Proof.
  assert (H7 : parses_as_int "7" 7).
  { split; [reflexivity|]. split; [discriminate | reflexivity]. }
  assert (Hbad : forall n, ~ parses_as_int "7a" n).
  { intros n [H _]. vm_compute in H. discriminate H. }
  split; [exact H7|].
  destruct (numeric_accessors_parse_or_panic fixture_integration "7") as (H & _).
  destruct (H eq_refl) as (Hok & _).
  split; [exact (Hok 7 H7)|]. split; [exact Hbad|].
  destruct (numeric_accessors_parse_or_panic
              (unmarshal {[ "PrNum" := "7a" ]} zero_Integration) "7a") as (H' & _).
  destruct (H' eq_refl) as (_ & Hpanic & _).
  destruct (Hpanic Hbad) as (err & _ & Hp). exists err. exact Hp.
Defined.

(** C9, as the claim has it, fails: [CreateNewCheckRun] writes
    [CheckRunName].  With a host that answers under another name, the
    receiver's [CheckRunName] after the call is not what it was. *)
Lemma CreateNewCheckRun_rewrites_CheckRunName :
  let r := run (CreateNewCheckRun renaming_host) fixture_integration empty_world in
  result r = Returns None /\
  CheckRunName fixture_integration = Some "sim" /\
  CheckRunName (receiver r) = Some "sim (queued)" /\
  ~ only_ActiveCheckRun_changed fixture_integration (receiver r).
Proof.
  split; [reflexivity|]. split; [reflexivity|]. split; [reflexivity|].
  intros (_ & H). vm_compute in H. discriminate H.
Qed.

Lemma check_run_operations_frame_witness :
  let r := run (CreateNewCheckRun renaming_host) fixture_integration empty_world in
  RepoOwner (receiver r) = Some "cosmos" /\
  PrNum (receiver r) = Some "7" /\
  exists cr, ActiveCheckRun (receiver r) = Some cr /\
             CheckRunName (receiver r) = github.CheckRun.Name cr.
Proof.
  intros r.
  destruct (check_run_operations_frame renaming_host fixture_integration empty_world)
    as (_ & _ & _ & _ & Hframe & _ & Hname).
  destruct Hframe as (_ & _ & _ & _ & _ & _ & Ho & _ & Hp).
  split; [exact Ho|]. split; [exact Hp|].
  apply Hname. reflexivity.
Defined.

(** * Further behaviour of the package *)

(** ** The construction paths, step by step *)

(** The shared tail when every step is served: four facts about the host
    decide the run. *)
Lemma authenticate_served h region keyID s key intID instID owner repo num :
  let ssm := runsimaws.Ssm_Config region in
  let t0 := trace (world s) in
  let t1 := t0 ++ [EvGetParameter ssm keyID] in
  let t2 := t1 ++ [EvGhappNew intID instID key] in
  ssm_GetParameter h t0 ssm keyID = inl key ->
  GetAppIntID (self s) = Returns intID ->
  GetAppInstID (self s) = Returns instID ->
  ghapp_New h t1 intID instID key = None ->
  GetOwner (self s) = Returns owner ->
  GetRepo (self s) = Returns repo ->
  GetPrNum (self s) = Returns num ->
  authenticate h region keyID s =
    (Returns (snd (PullRequests_Get h t2 owner repo num)),
     {| self := set_PR (fst (PullRequests_Get h t2 owner repo num))
                  (set_Client (Some (app_client intID instID key)) (self s));
        world := {| trace := t2 ++ [EvPullRequestsGet owner repo num];
                    tables := tables (world s) |} |}).
Proof.
  intros ssm t0 t1 t2 Hs Hi Hj Ha Ho Hr Hn. subst t2 t1 t0 ssm.
  destruct s as [gh w].
  unfold authenticate, Ssm_GetParameter, ghapp_New_call, bind, call, eval, ret,
    modify, read, deref, log; simpl in *.
  rewrite Hs; simpl. rewrite Hi; simpl. rewrite Hj; simpl. rewrite Ha; simpl.
  unfold GetOwner, GetRepo, GetPrNum in *; simpl in *.
  rewrite Ho; simpl. rewrite Hr; simpl. rewrite Hn; simpl.
  reflexivity.
Qed.

(** X1.  [ConfigFromScratch] when every collaborator serves its step and the
    three identifiers are numeric: it makes exactly four calls, in the order
    write state, get secret, build app transport, fetch pull request; the
    transport is built from the integration id, the installation id and the
    secret, in that order; the client over it is installed; the fetch's
    answer becomes [PR] and its error the result; the table holds the
    record. *)
Theorem ConfigFromScratch_served
    (h : Host) (gh : Integration) (w : World)
    (awsRegion privateKeyID repoOwner repoName checkRunName
       installationID integrationID prNum key : string)
    (intID instID num : Z) :
  let tbl := runsimaws.DdbTable_Config awsRegion primaryKey tableName in
  let ssm := runsimaws.Ssm_Config awsRegion in
  let item := scratch_record repoOwner repoName checkRunName
                installationID integrationID prNum in
  let t1 := trace w ++ [EvPutState tbl item] in
  let t2 := t1 ++ [EvGetParameter ssm privateKeyID] in
  let t3 := t2 ++ [EvGhappNew intID instID key] in
  let r := run (ConfigFromScratch h awsRegion privateKeyID repoOwner repoName
                  checkRunName installationID integrationID prNum) gh w in
  ddb_fault h (trace w) = None ->
  ssm_GetParameter h t1 ssm privateKeyID = inl key ->
  strconv.Atoi integrationID = inl intID ->
  strconv.Atoi installationID = inl instID ->
  strconv.Atoi prNum = inl num ->
  ghapp_New h t2 intID instID key = None ->
  trace (world_after r) = t3 ++ [EvPullRequestsGet repoOwner repoName num] /\
  Client (receiver r) = Some (app_client intID instID key) /\
  PR (receiver r) = fst (PullRequests_Get h t3 repoOwner repoName num) /\
  result r = Returns (snd (PullRequests_Get h t3 repoOwner repoName num)) /\
  tables (world_after r) = <[state_key awsRegion := item]> (tables w).
Proof.
  intros tbl ssm item t1 t2 t3 r Hput Hsec Hint Hinst Hnum Hauth. subst r.
  unfold ConfigFromScratch, DdbTable_PutState. unfold_monad. simpl.
  change (marshal _) with item. fold tbl.
  rewrite Hput. simpl.
  assert (Hk : item !! primaryKey = Some "GitHub") by apply lookup_insert_eq.
  rewrite Hk. simpl.
  erewrite authenticate_served with (key := key) (intID := intID) (instID := instID)
    (owner := repoOwner) (repo := repoName) (num := num); simpl;
    try reflexivity; try assumption.
  - repeat split; reflexivity.
  - unfold GetAppIntID, atoi_or_panic; simpl. rewrite Hint. reflexivity.
  - unfold GetAppInstID, atoi_or_panic; simpl. rewrite Hinst. reflexivity.
  - unfold GetPrNum, atoi_or_panic; simpl. rewrite Hnum. reflexivity.
Qed.

(** X2.  [ConfigFromState] when the load is served, the stored record is
    complete and numeric, and every later step is served: exactly four calls,
    in the order read state, get secret, build app transport, fetch pull
    request, the identifiers and the repository of the calls being those of
    the stored record, whatever the receiver held before; the client is
    installed, the fetch's answer becomes [PR] and its error the result, and
    the table is left as it was. *)
Theorem ConfigFromState_served
    (h : Host) (gh : Integration) (w : World)
    (awsRegion ghAccessTokenID key : string) (item : Item)
    (repoOwner repoName checkRunName installationID integrationID prNum : string)
    (intID instID num : Z) :
  let tbl := runsimaws.DdbTable_Config awsRegion primaryKey tableName in
  let ssm := runsimaws.Ssm_Config awsRegion in
  let t1 := trace w ++ [EvGetState tbl "GitHub"] in
  let t2 := t1 ++ [EvGetParameter ssm ghAccessTokenID] in
  let t3 := t2 ++ [EvGhappNew intID instID key] in
  let r := run (ConfigFromState h awsRegion ghAccessTokenID) gh w in
  ddb_fault h (trace w) = None ->
  tables w !! state_key awsRegion = Some item ->
  item !! "IntegrationID" = Some integrationID ->
  item !! "InstallationID" = Some installationID ->
  item !! "PrNum" = Some prNum ->
  item !! "RepoName" = Some repoName ->
  item !! "RepoOwner" = Some repoOwner ->
  item !! "CheckRunName" = Some checkRunName ->
  ssm_GetParameter h t1 ssm ghAccessTokenID = inl key ->
  strconv.Atoi integrationID = inl intID ->
  strconv.Atoi installationID = inl instID ->
  strconv.Atoi prNum = inl num ->
  ghapp_New h t2 intID instID key = None ->
  trace (world_after r) = t3 ++ [EvPullRequestsGet repoOwner repoName num] /\
  Client (receiver r) = Some (app_client intID instID key) /\
  PR (receiver r) = fst (PullRequests_Get h t3 repoOwner repoName num) /\
  result r = Returns (snd (PullRequests_Get h t3 repoOwner repoName num)) /\
  CheckRunName (receiver r) = Some checkRunName /\
  tables (world_after r) = tables w.
Proof.
  intros tbl ssm t1 t2 t3 r Hget Hitem A1 A2 A3 A4 A5 A6 Hsec Hint Hinst Hnum Hauth.
  subst r.
  unfold ConfigFromState, DdbTable_GetState. unfold_monad. simpl.
  fold tbl. rewrite Hget. simpl.
  unfold state_key in Hitem. rewrite Hitem. simpl.
  unfold ValidateState, unmarshal at 1; simpl.
  rewrite A1, A2, A3, A4, A5, A6. simpl.
  erewrite authenticate_served with (key := key) (intID := intID) (instID := instID)
    (owner := repoOwner) (repo := repoName) (num := num); simpl;
    try reflexivity; try assumption.
  - repeat split; try reflexivity. exact A6.
  - unfold GetAppIntID, atoi_or_panic; simpl. rewrite A1, Hint. reflexivity.
  - unfold GetAppInstID, atoi_or_panic; simpl. rewrite A2, Hinst. reflexivity.
  - unfold GetOwner, deref_pure; simpl. rewrite A5. reflexivity.
  - unfold GetRepo, deref_pure; simpl. rewrite A4. reflexivity.
  - unfold GetPrNum, atoi_or_panic; simpl. rewrite A3, Hnum. reflexivity.
Qed.

(** The shared tail with an app identifier that is no number: the secret is
    retrieved, then the accessor panics; nothing of the receiver changes. *)
Lemma authenticate_bad_app_id h region keyID s key err :
  let ssm := runsimaws.Ssm_Config region in
  ssm_GetParameter h (trace (world s)) ssm keyID = inl key ->
  (GetAppIntID (self s) = Panics err \/
   (exists intID, GetAppIntID (self s) = Returns intID) /\
   GetAppInstID (self s) = Panics err) ->
  authenticate h region keyID s =
    (Panics err, {| self := self s; world := log (EvGetParameter ssm keyID) (world s) |}).
Proof.
  intros ssm Hs Hbad. subst ssm. destruct s as [gh w].
  unfold authenticate, Ssm_GetParameter, bind, call, eval; simpl in *.
  rewrite Hs; simpl.
  destruct Hbad as [Hi | [(i & Hi) Hj]]; rewrite Hi; simpl; [reflexivity|].
  rewrite Hj. reflexivity.
Qed.

(** The shared tail with numeric app identifiers and a pull-request number
    that is no number: the client is installed, then the accessor panics
    before the fetch is sent. *)
Lemma authenticate_bad_PrNum h region keyID s key intID instID owner repo err :
  let ssm := runsimaws.Ssm_Config region in
  let t1 := trace (world s) ++ [EvGetParameter ssm keyID] in
  ssm_GetParameter h (trace (world s)) ssm keyID = inl key ->
  GetAppIntID (self s) = Returns intID ->
  GetAppInstID (self s) = Returns instID ->
  ghapp_New h t1 intID instID key = None ->
  GetOwner (self s) = Returns owner ->
  GetRepo (self s) = Returns repo ->
  GetPrNum (self s) = Panics err ->
  authenticate h region keyID s =
    (Panics err,
     {| self := set_Client (Some (app_client intID instID key)) (self s);
        world := {| trace := t1 ++ [EvGhappNew intID instID key];
                    tables := tables (world s) |} |}).
Proof.
  intros ssm t1 Hs Hi Hj Ha Ho Hr Hn. subst t1 ssm.
  destruct s as [gh w].
  unfold authenticate, Ssm_GetParameter, ghapp_New_call, bind, call, eval, ret,
    modify, read, deref, log; simpl in *.
  rewrite Hs; simpl. rewrite Hi; simpl. rewrite Hj; simpl. rewrite Ha; simpl.
  unfold GetOwner, GetRepo, GetPrNum in *; simpl in *.
  rewrite Ho; simpl. rewrite Hr; simpl. rewrite Hn; simpl.
  reflexivity.
Qed.

(** X3.  [ConfigFromScratch] does not look at its identifiers before writing
    them.  With an integration id (or, that one being numeric, an
    installation id) that [strconv.Atoi] rejects, on a host that serves the
    write and the secret, the record is stored, the secret is retrieved, and
    then the call panics with the conversion error: two calls are made, no
    transport is built and [Client] is what it was. *)
Theorem ConfigFromScratch_bad_app_id_panics_after_write
    (h : Host) (gh : Integration) (w : World)
    (awsRegion privateKeyID repoOwner repoName checkRunName
       installationID integrationID prNum key : string) (err : error) :
  let tbl := runsimaws.DdbTable_Config awsRegion primaryKey tableName in
  let ssm := runsimaws.Ssm_Config awsRegion in
  let item := scratch_record repoOwner repoName checkRunName
                installationID integrationID prNum in
  let r := run (ConfigFromScratch h awsRegion privateKeyID repoOwner repoName
                  checkRunName installationID integrationID prNum) gh w in
  ddb_fault h (trace w) = None ->
  ssm_GetParameter h (trace w ++ [EvPutState tbl item]) ssm privateKeyID = inl key ->
  (strconv.Atoi integrationID = inr err \/
   (exists intID, strconv.Atoi integrationID = inl intID) /\
   strconv.Atoi installationID = inr err) ->
  result r = Panics (PanicError err) /\
  trace (world_after r) = trace w ++ [EvPutState tbl item; EvGetParameter ssm privateKeyID] /\
  tables (world_after r) = <[state_key awsRegion := item]> (tables w) /\
  Client (receiver r) = Client gh.
Proof.
  intros tbl ssm item r Hput Hsec Hbad. subst r.
  unfold ConfigFromScratch, DdbTable_PutState. unfold_monad. simpl.
  change (marshal _) with item. fold tbl.
  rewrite Hput. simpl.
  assert (Hk : item !! primaryKey = Some "GitHub") by apply lookup_insert_eq.
  rewrite Hk. simpl.
  erewrite authenticate_bad_app_id with (key := key) (err := PanicError err); simpl.
  - rewrite <- app_assoc. repeat split; reflexivity.
  - exact Hsec.
  - unfold GetAppIntID, GetAppInstID, atoi_or_panic; simpl.
    destruct Hbad as [Hi | [(i & Hi) Hj]].
    + left. rewrite Hi. reflexivity.
    + right. rewrite Hi, Hj. eauto.
Qed.

(** X4.  With numeric app identifiers and a pull-request number that
    [strconv.Atoi] rejects, on a host that serves every step,
    [ConfigFromScratch] panics with the conversion error after installing the
    client and before sending the fetch: three calls are made, [Client] is
    set and [PR] is what it was. *)
Theorem ConfigFromScratch_bad_PrNum_panics_with_client
    (h : Host) (gh : Integration) (w : World)
    (awsRegion privateKeyID repoOwner repoName checkRunName
       installationID integrationID prNum key : string)
    (intID instID : Z) (err : error) :
  let tbl := runsimaws.DdbTable_Config awsRegion primaryKey tableName in
  let ssm := runsimaws.Ssm_Config awsRegion in
  let item := scratch_record repoOwner repoName checkRunName
                installationID integrationID prNum in
  let t1 := trace w ++ [EvPutState tbl item] in
  let t2 := t1 ++ [EvGetParameter ssm privateKeyID] in
  let r := run (ConfigFromScratch h awsRegion privateKeyID repoOwner repoName
                  checkRunName installationID integrationID prNum) gh w in
  ddb_fault h (trace w) = None ->
  ssm_GetParameter h t1 ssm privateKeyID = inl key ->
  strconv.Atoi integrationID = inl intID ->
  strconv.Atoi installationID = inl instID ->
  ghapp_New h t2 intID instID key = None ->
  strconv.Atoi prNum = inr err ->
  result r = Panics (PanicError err) /\
  trace (world_after r) = t2 ++ [EvGhappNew intID instID key] /\
  Client (receiver r) = Some (app_client intID instID key) /\
  PR (receiver r) = PR gh.
Proof.
  intros tbl ssm item t1 t2 r Hput Hsec Hint Hinst Hauth Hnum. subst r.
  unfold ConfigFromScratch, DdbTable_PutState. unfold_monad. simpl.
  change (marshal _) with item. fold tbl.
  rewrite Hput. simpl.
  assert (Hk : item !! primaryKey = Some "GitHub") by apply lookup_insert_eq.
  rewrite Hk. simpl.
  erewrite authenticate_bad_PrNum with (key := key) (intID := intID) (instID := instID)
    (owner := repoOwner) (repo := repoName) (err := PanicError err); simpl;
    try reflexivity; try assumption.
  - repeat split; reflexivity.
  - unfold GetAppIntID, atoi_or_panic; simpl. rewrite Hint. reflexivity.
  - unfold GetAppInstID, atoi_or_panic; simpl. rewrite Hinst. reflexivity.
  - unfold GetPrNum, atoi_or_panic; simpl. rewrite Hnum. reflexivity.
Qed.

(** X5.  [ConfigFromState] stops at a record that lacks a required field: on
    a host that serves the load, if [ValidateState] rejects the loaded
    receiver the call returns that very error after its single call, the
    load; the secret is not asked for and [Client] and the table are what
    they were. *)
Theorem ConfigFromState_incomplete_record_stops
    (h : Host) (gh : Integration) (w : World)
    (awsRegion ghAccessTokenID : string) (item : Item) (err : error) :
  let tbl := runsimaws.DdbTable_Config awsRegion primaryKey tableName in
  let r := run (ConfigFromState h awsRegion ghAccessTokenID) gh w in
  ddb_fault h (trace w) = None ->
  tables w !! state_key awsRegion = Some item ->
  ValidateState (unmarshal item gh) = Some err ->
  result r = Returns (Some err) /\
  trace (world_after r) = trace w ++ [EvGetState tbl "GitHub"] /\
  Client (receiver r) = Client gh /\
  tables (world_after r) = tables w.
Proof.
  intros tbl r Hget Hitem Hv. subst r.
  unfold ConfigFromState, DdbTable_GetState. unfold_monad. simpl.
  fold tbl. rewrite Hget. simpl.
  unfold state_key in Hitem. rewrite Hitem. simpl.
  assert (Hv' : ValidateState (unmarshal item (set_State (Some tbl) gh)) = Some err)
    by exact Hv.
  rewrite Hv'. simpl. repeat split; reflexivity.
Qed.

(** X6.  [ValidateState] does not guard the numeric accessors.  A stored
    record with all six fields present passes validation whatever the
    strings are, and if its integration id is one [strconv.Atoi] rejects,
    [ConfigFromState] on a host that serves the load and the secret panics
    with the conversion error after those two calls. *)
Theorem ConfigFromState_validated_record_can_panic
    (h : Host) (gh : Integration) (w : World)
    (awsRegion ghAccessTokenID key : string) (item : Item)
    (repoOwner repoName checkRunName installationID integrationID prNum : string)
    (err : error) :
  let tbl := runsimaws.DdbTable_Config awsRegion primaryKey tableName in
  let ssm := runsimaws.Ssm_Config awsRegion in
  let r := run (ConfigFromState h awsRegion ghAccessTokenID) gh w in
  ddb_fault h (trace w) = None ->
  tables w !! state_key awsRegion = Some item ->
  item !! "IntegrationID" = Some integrationID ->
  item !! "InstallationID" = Some installationID ->
  item !! "PrNum" = Some prNum ->
  item !! "RepoName" = Some repoName ->
  item !! "RepoOwner" = Some repoOwner ->
  item !! "CheckRunName" = Some checkRunName ->
  ssm_GetParameter h (trace w ++ [EvGetState tbl "GitHub"]) ssm ghAccessTokenID = inl key ->
  strconv.Atoi integrationID = inr err ->
  ValidateState (unmarshal item gh) = None /\
  result r = Panics (PanicError err) /\
  trace (world_after r) =
    trace w ++ [EvGetState tbl "GitHub"; EvGetParameter ssm ghAccessTokenID] /\
  Client (receiver r) = Client gh.
Proof.
  intros tbl ssm r Hget Hitem A1 A2 A3 A4 A5 A6 Hsec Hbad. subst r.
  assert (Hv : forall g, ValidateState (unmarshal item g) = None).
  { intros g. unfold ValidateState, unmarshal; simpl.
    rewrite A1, A2, A3, A4, A5, A6. reflexivity. }
  split; [apply Hv|].
  unfold ConfigFromState, DdbTable_GetState. unfold_monad. simpl.
  fold tbl. rewrite Hget. simpl.
  unfold state_key in Hitem. rewrite Hitem. simpl.
  rewrite Hv. simpl.
  erewrite authenticate_bad_app_id with (key := key) (err := PanicError err); simpl.
  - rewrite <- app_assoc. repeat split; reflexivity.
  - exact Hsec.
  - left. unfold GetAppIntID, atoi_or_panic; simpl. rewrite A1, Hbad. reflexivity.
Qed.

(** X7.  [ConfigFromState] never writes the state table, and when the store
    reports a fault on the load it returns that error after this single
    call, with the receiver's identity fields and [Client] untouched. *)
Theorem ConfigFromState_reads_only
    (h : Host) (gh : Integration) (w : World) (awsRegion ghAccessTokenID : string) :
  let tbl := runsimaws.DdbTable_Config awsRegion primaryKey tableName in
  let r := run (ConfigFromState h awsRegion ghAccessTokenID) gh w in
  tables (world_after r) = tables w /\
  (forall err, ddb_fault h (trace w) = Some err ->
     result r = Returns (Some err) /\
     trace (world_after r) = trace w ++ [EvGetState tbl "GitHub"] /\
     same_identity (receiver r) gh /\
     Client (receiver r) = Client gh).
Proof.
  intros tbl r. subst r.
  unfold ConfigFromState, DdbTable_GetState. unfold_monad. simpl. fold tbl.
  destruct (ddb_fault h (trace w)) as [e|]; simpl.
  { split; [reflexivity|]. intros err [= <-]. repeat split; reflexivity. }
  split; [|discriminate].
  destruct (tables w !! _) as [item|]; simpl; [|reflexivity].
  destruct (ValidateState _) as [e|]; simpl; [reflexivity|].
  match goal with
  | |- context [authenticate h awsRegion ghAccessTokenID ?s] =>
      destruct (authenticate_cases h awsRegion ghAccessTokenID s) as (-> & _)
  end.
  reflexivity.
Qed.

(** ** The check-run operations outside their preconditions *)

(** X8.  No check-run operation touches the state store: whatever the
    receiver and the host, each of the five leaves the table contents as
    they were and adds at most one call to the history, which is a call to a
    check-run endpoint. *)
Theorem check_run_operations_leave_store_alone
    (h : Host) (gh : Integration) (w : World) :
  let quiet (r : outcome (option error) * Session) :=
    tables (world_after r) = tables w /\
    (trace (world_after r) = trace w \/
     exists ev, trace (world_after r) = trace w ++ [ev] /\ is_check_run_call ev = true) in
  quiet (run (CreateNewCheckRun h) gh w) /\
  quiet (run (SetActiveCheckRun h) gh w) /\
  quiet (run (UpdateActiveCheckRun h) gh w) /\
  (forall status summary, quiet (run (UpdateCheckRunStatus h status summary) gh w)) /\
  (forall summary conclusion, quiet (run (ConcludeCheckRun h summary conclusion) gh w)).
Proof.
  intros quiet. subst quiet.
  destruct gh as [c pr a st it crn inst int ro rn pn].
  split; [|split; [|split; [|split]]]; intros;
    unfold CreateNewCheckRun, SetActiveCheckRun, UpdateActiveCheckRun,
      UpdateCheckRunStatus, ConcludeCheckRun, send_update;
    unfold_monad; simpl; case_matches;
    (split; [reflexivity|]);
    first [left; reflexivity | right; eexists; split; reflexivity].
Qed.

(** X9.  On a receiver without a client, every check-run operation panics
    with a nil dereference before any call is made, and leaves the receiver
    and the world exactly as they were. *)
Theorem check_run_operations_need_client
    (h : Host) (gh : Integration) (w : World) :
  Client gh = None ->
  let refused (r : outcome (option error) * Session) :=
    result r = Panics NilDereference /\ receiver r = gh /\ world_after r = w in
  refused (run (CreateNewCheckRun h) gh w) /\
  refused (run (SetActiveCheckRun h) gh w) /\
  refused (run (UpdateActiveCheckRun h) gh w) /\
  (forall status summary, refused (run (UpdateCheckRunStatus h status summary) gh w)) /\
  (forall summary conclusion, refused (run (ConcludeCheckRun h summary conclusion) gh w)).
Proof.
  intros Hc refused. subst refused.
  destruct gh as [c pr a st it crn inst int ro rn pn]. simpl in Hc. subst c.
  split; [|split; [|split; [|split]]]; intros;
    unfold CreateNewCheckRun, SetActiveCheckRun, UpdateActiveCheckRun,
      UpdateCheckRunStatus, ConcludeCheckRun, send_update;
    unfold_monad; simpl; case_matches; repeat split; reflexivity.
Qed.

(** X10.  What validation buys.  On a receiver that [ValidateState] accepts,
    [GetOwner], [GetRepo] and [GetCheckRunName] return the stored strings,
    and a numeric accessor either returns or panics with the conversion
    error of [strconv.Atoi], never with a nil dereference. *)
Theorem validated_receiver_accessors (gh : Integration) :
  ValidateState gh = None ->
  (exists owner repo name,
     RepoOwner gh = Some owner /\ GetOwner gh = Returns owner /\
     RepoName gh = Some repo /\ GetRepo gh = Returns repo /\
     CheckRunName gh = Some name /\ GetCheckRunName gh = Returns name) /\
  GetPrNum gh <> Panics NilDereference /\
  GetAppInstID gh <> Panics NilDereference /\
  GetAppIntID gh <> Panics NilDereference.
Proof.
  destruct gh as [c pr a st it crn inst int ro rn pn].
  unfold ValidateState, GetOwner, GetRepo, GetCheckRunName, GetPrNum, GetAppInstID,
    GetAppIntID, atoi_or_panic, deref_pure; simpl.
  destruct int, inst, pn, rn, ro, crn; simpl; try discriminate.
  intros _. split; [eauto 10|].
  repeat split; case_matches; discriminate.
Qed.

Lemma authenticate_keeps_State h region keyID s :
  State (self (snd (authenticate h region keyID s))) = State (self s).
Proof.
  destruct (authenticate_cases h region keyID s)
    as (_ & _ & calls & _ & [(_ & Hres) | (_ & hist & o & rp & n & tr & _ & -> & _)]);
    [|reflexivity].
  destruct Hres as [(e & _ & ->) | (p & Hp)]; [reflexivity|].
  destruct s as [gh w]. revert Hp.
  unfold authenticate, Ssm_GetParameter, ghapp_New_call, GetAppIntID, GetAppInstID, GetPrNum.
  unfold_monad. simpl. case_matches; reflexivity.
Qed.

(** X11.  [ConfigFromScratch] checks none of its arguments: whatever strings
    it is given, the empty string included, and however the run ends, the
    receiver it leaves behind has all six required fields and
    [IntegrationType] set, so [ValidateState] accepts it. *)
Theorem ConfigFromScratch_receiver_validates
    (h : Host) (gh : Integration) (w : World)
    (awsRegion privateKeyID repoOwner repoName checkRunName
       installationID integrationID prNum : string) :
  let r := run (ConfigFromScratch h awsRegion privateKeyID repoOwner repoName
                  checkRunName installationID integrationID prNum) gh w in
  ValidateState (receiver r) = None /\
  IntegrationType (receiver r) = Some "GitHub" /\
  RepoOwner (receiver r) = Some repoOwner /\
  RepoName (receiver r) = Some repoName /\
  CheckRunName (receiver r) = Some checkRunName /\
  InstallationID (receiver r) = Some installationID /\
  IntegrationID (receiver r) = Some integrationID /\
  PrNum (receiver r) = Some prNum /\
  State (receiver r) = Some (runsimaws.DdbTable_Config awsRegion primaryKey tableName).
Proof.
  intros r. subst r.
  unfold ConfigFromScratch, DdbTable_PutState. unfold_monad. simpl.
  destruct (ddb_fault h (trace w)) as [e|]; simpl; [repeat split|].
  destruct (marshal _ !! primaryKey) as [k|]; simpl; [|repeat split].
  match goal with
  | |- context [authenticate h awsRegion privateKeyID ?s] =>
      destruct (authenticate_cases h awsRegion privateKeyID s) as (_ & Hid & _);
      pose proof (authenticate_keeps_State h awsRegion privateKeyID s) as Hst
  end.
  simpl in Hid, Hst.
  destruct Hid as (I1 & I2 & I3 & I4 & I5 & I6 & I7).
  split; [|repeat split; assumption].
  unfold ValidateState. rewrite I4, I3, I7, I6, I5, I2. reflexivity.
Qed.

(** ** Creating and locating a check run *)

(** X12.  [CreateNewCheckRun] on an authenticated receiver sends one
    creation request, for the receiver's repository, named after
    [CheckRunName] and scoped to the pull request's head branch and SHA (the
    empty string for what the pull request lacks).  Whatever check run the
    call returns becomes [ActiveCheckRun]; an error is returned as it is; a
    success without a check run panics at the read of its name. *)
Theorem CreateNewCheckRun_request_and_result
    (h : Host) (gh : Integration) (w : World)
    (c : github_client.Client) (owner repo name : string)
    (pr : github.PullRequest.t) :
  Client gh = Some c ->
  RepoOwner gh = Some owner ->
  RepoName gh = Some repo ->
  CheckRunName gh = Some name ->
  PR gh = Some pr ->
  let opt := create_options name pr in
  let answer := Checks_CreateCheckRun h (trace w) owner repo opt in
  let r := run (CreateNewCheckRun h) gh w in
  trace (world_after r) = trace w ++ [EvCreateCheckRun owner repo opt] /\
  ActiveCheckRun (receiver r) = fst answer /\
  (forall err, snd answer = Some err -> result r = Returns (Some err)) /\
  (forall cr, answer = (Some cr, None) -> result r = Returns None) /\
  (answer = (None, None) -> result r = Panics NilDereference).
Proof.
  intros Hc Ho Hr Hn Hp opt answer r. subst r answer opt.
  destruct gh as [c' pr' a st it crn inst int ro rn pn]; simpl in *; subst.
  unfold CreateNewCheckRun, create_options. unfold_monad. simpl.
  destruct (Checks_CreateCheckRun h _ _ _ _) as [[cr|] [e|]]; simpl;
    repeat split; try reflexivity; intros; congruence.
Qed.

(** X13.  [SetActiveCheckRun] on an authenticated receiver sends one listing
    request, for the receiver's repository and the pull request's head
    branch, filtered by [CheckRunName] and by [latest].  If the host answers
    with an error, that error is returned and the receiver is untouched; if
    it answers with neither a list nor an error, the call panics. *)
Theorem SetActiveCheckRun_request_and_errors
    (h : Host) (gh : Integration) (w : World)
    (c : github_client.Client) (owner repo name : string)
    (pr : github.PullRequest.t) :
  Client gh = Some c ->
  RepoOwner gh = Some owner ->
  RepoName gh = Some repo ->
  CheckRunName gh = Some name ->
  PR gh = Some pr ->
  let answer :=
    Checks_ListCheckRunsForRef h (trace w) owner repo (head_ref pr) (latest_named name) in
  let r := run (SetActiveCheckRun h) gh w in
  trace (world_after r) =
    trace w ++ [EvListCheckRunsForRef owner repo (head_ref pr) (latest_named name)] /\
  (forall err, snd answer = Some err -> result r = Returns (Some err) /\ receiver r = gh) /\
  (answer = (None, None) -> result r = Panics NilDereference /\ receiver r = gh).
Proof.
  intros Hc Ho Hr Hn Hp answer r. subst r answer.
  destruct gh as [c' pr' a st it crn inst int ro rn pn]; simpl in *; subst.
  unfold SetActiveCheckRun, head_ref, latest_named. unfold_monad. simpl.
  destruct (Checks_ListCheckRunsForRef h _ _ _ _ _) as [[res|] [e|]]; simpl;
    case_matches;
    (split; [reflexivity|]); split; intros; try congruence; try discriminate;
    repeat split; congruence.
Qed.

(** X14.  Create, then conclude.  After a [CreateNewCheckRun] that succeeded
    with the check run [cr], [ConcludeCheckRun] updates the check run with
    the id and the name of [cr]: the conclusion goes to the run just
    created. *)
Theorem create_then_conclude_targets_created_run
    (h : Host) (gh : Integration) (w : World)
    (c : github_client.Client) (owner repo name : string)
    (pr : github.PullRequest.t) (cr : github.CheckRun.t)
    (summary conclusion : option string) :
  Client gh = Some c ->
  RepoOwner gh = Some owner ->
  RepoName gh = Some repo ->
  CheckRunName gh = Some name ->
  PR gh = Some pr ->
  Checks_CreateCheckRun h (trace w) owner repo (create_options name pr) = (Some cr, None) ->
  let created := run (CreateNewCheckRun h) gh w in
  let concluded := and_then created (ConcludeCheckRun h summary conclusion) in
  result created = Returns None /\
  exists opt,
    trace (world_after concluded) =
      trace w ++ [EvCreateCheckRun owner repo (create_options name pr);
                  EvUpdateCheckRun owner repo (github.CheckRun.GetID (Some cr)) opt] /\
    github.UpdateCheckRunOptions.Name opt = github.CheckRun.GetName (Some cr) /\
    github.UpdateCheckRunOptions.Status opt = Some "completed" /\
    github.UpdateCheckRunOptions.Conclusion opt = conclusion.
Proof.
  intros Hc Ho Hr Hn Hp Hans created concluded. subst concluded created.
  destruct gh as [c' pr' a st it crn inst int ro rn pn]; simpl in *; subst.
  unfold and_then, CreateNewCheckRun, ConcludeCheckRun, send_update. unfold_monad. simpl.
  unfold create_options in Hans. rewrite Hans. simpl.
  split; [reflexivity|].
  eexists. split; [rewrite <- app_assoc; reflexivity|]. simpl. repeat split.
Qed.

(** X15.  Locate, then refresh.  After a [SetActiveCheckRun] that found the
    unconcluded run [first] at the top of the host's list,
    [UpdateActiveCheckRun] re-fetches the check run with the id of [first]
    and stores what that call returns. *)
Theorem locate_then_refresh_targets_located_run
    (h : Host) (gh : Integration) (w : World)
    (c : github_client.Client) (owner repo name : string)
    (pr : github.PullRequest.t) (res : github.ListCheckRunsResults.t)
    (first : option github.CheckRun.t) (rest : list (option github.CheckRun.t)) :
  Client gh = Some c ->
  RepoOwner gh = Some owner ->
  RepoName gh = Some repo ->
  CheckRunName gh = Some name ->
  PR gh = Some pr ->
  Checks_ListCheckRunsForRef h (trace w) owner repo (head_ref pr) (latest_named name)
    = (Some res, None) ->
  github.ListCheckRunsResults.CheckRuns res = first :: rest ->
  github.CheckRun.GetConclusion first = "" ->
  let located := run (SetActiveCheckRun h) gh w in
  let refreshed := and_then located (UpdateActiveCheckRun h) in
  let id := github.CheckRun.GetID first in
  let t1 := trace w ++ [EvListCheckRunsForRef owner repo (head_ref pr) (latest_named name)] in
  trace (world_after refreshed) = t1 ++ [EvGetCheckRun owner repo id] /\
  ActiveCheckRun (receiver refreshed) = fst (Checks_GetCheckRun h t1 owner repo id) /\
  result refreshed = Returns (snd (Checks_GetCheckRun h t1 owner repo id)).
Proof.
  intros Hc Ho Hr Hn Hp Hans Hruns Hconc located refreshed id t1.
  subst refreshed located id t1.
  destruct gh as [c' pr' a st it crn inst int ro rn pn]; simpl in *; subst.
  unfold and_then, SetActiveCheckRun, UpdateActiveCheckRun. unfold_monad. simpl.
  unfold head_ref, latest_named in Hans. rewrite Hans. simpl. rewrite Hruns.
  destruct (decide _) as [_|Hne]; [|congruence]. simpl.
  repeat split; reflexivity.
Qed.

(** X16.  A creation answered with a check run that has no name empties
    [CheckRunName].  The call itself succeeds, but the receiver no longer
    passes [ValidateState], and a following [CreateNewCheckRun] or
    [SetActiveCheckRun] panics with a nil dereference. *)
Theorem nameless_created_run_breaks_receiver
    (h : Host) (gh : Integration) (w : World)
    (c : github_client.Client) (owner repo name : string)
    (pr : github.PullRequest.t) (cr : github.CheckRun.t) :
  Client gh = Some c ->
  RepoOwner gh = Some owner ->
  RepoName gh = Some repo ->
  CheckRunName gh = Some name ->
  PR gh = Some pr ->
  Checks_CreateCheckRun h (trace w) owner repo (create_options name pr) = (Some cr, None) ->
  github.CheckRun.Name cr = None ->
  let created := run (CreateNewCheckRun h) gh w in
  result created = Returns None /\
  CheckRunName (receiver created) = None /\
  ValidateState (receiver created) <> None /\
  result (and_then created (CreateNewCheckRun h)) = Panics NilDereference /\
  result (and_then created (SetActiveCheckRun h)) = Panics NilDereference.
Proof.
  intros Hc Ho Hr Hn Hp Hans Hname created. subst created.
  destruct gh as [c' pr' a st it crn inst int ro rn pn]; simpl in *; subst.
  unfold and_then, CreateNewCheckRun, SetActiveCheckRun. unfold_monad. simpl.
  unfold create_options in Hans. rewrite Hans. simpl. rewrite Hname.
  repeat split.
  unfold ValidateState; simpl. destruct int, inst, pn; simpl; discriminate.
Qed.

(** X17.  A pull request without a head is treated differently by the two
    operations that read it: [CreateNewCheckRun] sends its request with an
    empty head branch and an empty head SHA, while [UpdateCheckRunStatus]
    panics with a nil dereference before any call and changes nothing. *)
Theorem headless_pull_request
    (h : Host) (gh : Integration) (w : World)
    (c : github_client.Client) (owner repo name : string)
    (pr : github.PullRequest.t) (status summary : option string) :
  Client gh = Some c ->
  RepoOwner gh = Some owner ->
  RepoName gh = Some repo ->
  CheckRunName gh = Some name ->
  PR gh = Some pr ->
  github.PullRequest.Head pr = None ->
  let created := run (CreateNewCheckRun h) gh w in
  let updated := run (UpdateCheckRunStatus h status summary) gh w in
  trace (world_after created) =
    trace w ++ [EvCreateCheckRun owner repo
                  {| github.CreateCheckRunOptions.Name := name;
                     github.CreateCheckRunOptions.HeadBranch := "";
                     github.CreateCheckRunOptions.HeadSHA := "" |}] /\
  result updated = Panics NilDereference /\
  receiver updated = gh /\
  world_after updated = w.
Proof.
  intros Hc Ho Hr Hn Hp Hh created updated. subst created updated.
  destruct gh as [c' pr' a st it crn inst int ro rn pn]; simpl in *; subst.
  unfold CreateNewCheckRun, UpdateCheckRunStatus, send_update. unfold_monad. simpl.
  rewrite Hh. simpl.
  split; [|repeat split; reflexivity].
  destruct (Checks_CreateCheckRun h _ _ _ _) as [[cr|] [e|]]; reflexivity.
Qed.

(** ** Teardown and the shared record *)

(** X18.  [DeleteState] on a receiver bound to a table sends one deletion,
    for the fixed key [GitHub], and never changes the receiver.  When the
    store reports a fault the error is returned and the table is as it was;
    otherwise the call succeeds whether or not a record was there, the
    record of the receiver's region is gone, and every other record is
    kept.  (The store is the one modelled from the spec.) *)
Theorem DeleteState_removes_only_its_record
    (h : Host) (gh : Integration) (w : World) (tbl : runsimaws.DdbTable) :
  State gh = Some tbl ->
  let r := run (DeleteState h) gh w in
  let key := (runsimaws.Region tbl, runsimaws.Table tbl, "GitHub") in
  trace (world_after r) = trace w ++ [EvDeleteState tbl "GitHub"] /\
  receiver r = gh /\
  (forall err, ddb_fault h (trace w) = Some err ->
     result r = Returns (Some err) /\ tables (world_after r) = tables w) /\
  (ddb_fault h (trace w) = None ->
     result r = Returns None /\
     tables (world_after r) !! key = None /\
     forall other, other <> key -> tables (world_after r) !! other = tables w !! other).
Proof.
  intros Hst r key. subst r key.
  destruct gh as [c pr a st it crn inst int ro rn pn]; simpl in *; subst.
  unfold DeleteState, DdbTable_DeleteState. unfold_monad. simpl.
  destruct (ddb_fault h (trace w)) as [e|]; simpl.
  - split; [reflexivity|]. split; [reflexivity|]. split; [|discriminate].
    intros err' [= <-]. split; reflexivity.
  - split; [reflexivity|]. split; [reflexivity|]. split; [discriminate|].
    intros _. split; [reflexivity|]. split.
    + apply lookup_delete_eq.
    + intros other Hne. apply lookup_delete_ne. congruence.
Qed.

Lemma ConfigFromScratch_binds_table h gh w region keyID owner repo name inst int pr :
  State (receiver (run (ConfigFromScratch h region keyID owner repo name inst int pr) gh w))
  = Some (runsimaws.DdbTable_Config region primaryKey tableName).
Proof.
  unfold ConfigFromScratch, DdbTable_PutState. unfold_monad. simpl.
  destruct (ddb_fault h (trace w)) as [e|]; simpl; [reflexivity|].
  destruct (marshal _ !! primaryKey) as [k|]; simpl; [|reflexivity].
  match goal with
  | |- context [authenticate h region keyID ?s] =>
      rewrite (authenticate_keeps_State h region keyID s)
  end.
  reflexivity.
Qed.

Lemma DeleteState_served h gh w tbl :
  State gh = Some tbl ->
  ddb_fault h (trace w) = None ->
  run (DeleteState h) gh w =
    (Returns None,
     {| self := gh;
        world := {| trace := trace w ++ [EvDeleteState tbl "GitHub"];
                    tables := delete (runsimaws.Region tbl, runsimaws.Table tbl, "GitHub")
                                (tables w) |} |}).
Proof.
  intros Hst Hf. unfold DeleteState, DdbTable_DeleteState. unfold_monad. simpl.
  rewrite Hst. simpl. rewrite Hf. reflexivity.
Qed.

Lemma ConfigFromState_no_record h gh w region keyID :
  tables w !! state_key region = None ->
  let r := run (ConfigFromState h region keyID) gh w in
  (exists err, result r = Returns (Some err)) /\
  trace (world_after r) =
    trace w ++ [EvGetState (runsimaws.DdbTable_Config region primaryKey tableName) "GitHub"] /\
  Client (receiver r) = Client gh.
Proof.
  intros Hnone r. subst r.
  unfold ConfigFromState, DdbTable_GetState. unfold_monad. simpl.
  destruct (ddb_fault h (trace w)) as [e|]; simpl; [repeat split; eauto|].
  unfold state_key in Hnone. rewrite Hnone. simpl. repeat split; eauto.
Qed.

(** X19.  Teardown ends resumability.  After a [ConfigFromScratch] whose
    write the store accepted and a [DeleteState] the store served, a
    [ConfigFromState] for the same region returns an error after its single
    call, the load: no secret is asked for and no client is installed.  (The
    store is the one modelled from the spec.) *)
Theorem deleted_state_cannot_be_resumed
    (h : Host) (gh gh' : Integration) (w : World)
    (awsRegion privateKeyID repoOwner repoName checkRunName
       installationID integrationID prNum ghAccessTokenID : string) :
  let tbl := runsimaws.DdbTable_Config awsRegion primaryKey tableName in
  let written := run (ConfigFromScratch h awsRegion privateKeyID repoOwner repoName
                        checkRunName installationID integrationID prNum) gh w in
  let deleted := and_then written (DeleteState h) in
  let resumed := run (ConfigFromState h awsRegion ghAccessTokenID) gh' (world_after deleted) in
  ddb_fault h (trace w) = None ->
  ddb_fault h (trace (world_after written)) = None ->
  tables (world_after written) !! state_key awsRegion
    = Some (scratch_record repoOwner repoName checkRunName
              installationID integrationID prNum) /\
  result deleted = Returns None /\
  tables (world_after deleted) !! state_key awsRegion = None /\
  (exists err, result resumed = Returns (Some err)) /\
  trace (world_after resumed) = trace (world_after deleted) ++ [EvGetState tbl "GitHub"] /\
  Client (receiver resumed) = Client gh'.
Proof.
  intros tbl written deleted resumed Hput Hdel.
  pose proof (ConfigFromScratch_stores h gh w awsRegion privateKeyID repoOwner repoName
                checkRunName installationID integrationID prNum Hput) as Hstored.
  pose proof (ConfigFromScratch_binds_table h gh w awsRegion privateKeyID repoOwner
                repoName checkRunName installationID integrationID prNum) as Hst.
  fold written in Hstored, Hst. fold tbl in Hst.
  assert (Hd : deleted =
                 (Returns None,
                  {| self := receiver written;
                     world := {| trace := trace (world_after written)
                                            ++ [EvDeleteState tbl "GitHub"];
                                 tables := delete (state_key awsRegion)
                                             (tables (world_after written)) |} |}))
    by (apply (DeleteState_served h _ _ tbl Hst Hdel)).
  assert (Hgone : tables (world_after deleted) !! state_key awsRegion = None)
    by (rewrite Hd; apply lookup_delete_eq).
  split; [rewrite Hstored; apply lookup_insert_eq|].
  split; [rewrite Hd; reflexivity|]. split; [exact Hgone|].
  apply (ConfigFromState_no_record h gh' (world_after deleted) awsRegion ghAccessTokenID Hgone).
Qed.

(** X20.  One record per region.  The key under which [ConfigFromScratch]
    stores its record does not depend on its arguments, so a second fresh
    construction in the same region, for whatever repository and pull
    request, replaces the record of the first: after both writes were
    accepted the table is the original one with the second record under the
    fixed key.  (The store is the one modelled from the spec.) *)
Theorem second_fresh_construction_replaces_record
    (h1 h2 : Host) (gh1 gh2 : Integration) (w : World)
    (awsRegion : string)
    (key1 owner1 repo1 name1 inst1 int1 pr1 : string)
    (key2 owner2 repo2 name2 inst2 int2 pr2 : string) :
  let first := run (ConfigFromScratch h1 awsRegion key1 owner1 repo1 name1 inst1 int1 pr1)
                 gh1 w in
  let second := run (ConfigFromScratch h2 awsRegion key2 owner2 repo2 name2 inst2 int2 pr2)
                  gh2 (world_after first) in
  ddb_fault h1 (trace w) = None ->
  ddb_fault h2 (trace (world_after first)) = None ->
  tables (world_after first) !! state_key awsRegion
    = Some (scratch_record owner1 repo1 name1 inst1 int1 pr1) /\
  tables (world_after second)
    = <[state_key awsRegion := scratch_record owner2 repo2 name2 inst2 int2 pr2]> (tables w).
Proof.
  intros first second H1 H2.
  pose proof (ConfigFromScratch_stores h1 gh1 w awsRegion key1 owner1 repo1 name1
                inst1 int1 pr1 H1) as S1.
  pose proof (ConfigFromScratch_stores h2 gh2 (world_after first) awsRegion key2 owner2
                repo2 name2 inst2 int2 pr2 H2) as S2.
  fold first in S1. fold second in S2.
  split; [rewrite S1; apply lookup_insert_eq|].
  rewrite S2, S1. apply insert_insert_eq.
Qed.

(** ** Signed identifiers *)

Lemma digit_is_no_sign c :
  strconv.is_digit c = true -> Ascii.eqb c "+" = false /\ Ascii.eqb c "-" = false.
Proof.
  intros Hd. split.
  - destruct (Ascii.eqb_spec c "+") as [->|]; [discriminate Hd | reflexivity].
  - destruct (Ascii.eqb_spec c "-") as [->|]; [discriminate Hd | reflexivity].
Qed.

(** X21.  The numeric accessors accept an explicit sign.  If the digits
    [String c rest] convert to [n], then the same digits behind a plus sign
    convert to [n] and behind a minus sign to [- n]: a stored pull-request
    number that is negative is returned, not refused. *)
Theorem signed_identifier_is_accepted (gh : Integration) (c : ascii) (rest : string) (n : Z) :
  strconv.is_digit c = true ->
  strconv.Atoi (String c rest) = inl n ->
  0 <= n /\
  (PrNum gh = Some (String "+" (String c rest)) -> GetPrNum gh = Returns n) /\
  (PrNum gh = Some (String "-" (String c rest)) -> GetPrNum gh = Returns (- n)).
Proof.
  intros Hd Hn.
  destruct (digit_is_no_sign c Hd) as (Hp & Hm).
  apply Atoi_inl_iff in Hn as [Hv Hr].
  unfold literal_value in Hv. rewrite Hp, Hm in Hv.
  pose proof (digits_value_nonneg _ _ Hv) as H0.
  split; [exact H0|].
  split; intros Hs; unfold GetPrNum, atoi_or_panic; rewrite Hs.
  - assert (E : strconv.Atoi (String "+" (String c rest)) = inl n).
    { apply Atoi_inl_iff. split; [|lia]. exact Hv. }
    rewrite E. reflexivity.
  - assert (E : strconv.Atoi (String "-" (String c rest)) = inl (- n)).
    { apply Atoi_inl_iff. split; [|lia].
      unfold literal_value. simpl Ascii.eqb.
      change (digits_value (String c rest) 0) with
        (if strconv.is_digit c then digits_value rest (0 * 10 + strconv.digit_val c)
         else None) in Hv.
      cbn [digits_value]. rewrite Hv. reflexivity. }
    rewrite E. reflexivity.
Qed.

(** ** Construction followed by check-run operations *)

(** X22.  Fresh construction, then creation.  When [ConfigFromScratch] is
    served at every step and the fetch returns a pull request, a following
    [CreateNewCheckRun] does not panic: it sends one creation request for the
    repository and under the check-run name given to the constructor, scoped
    to the head of the pull request that was fetched. *)
Theorem fresh_construction_then_create
    (h : Host) (gh : Integration) (w : World)
    (awsRegion privateKeyID repoOwner repoName checkRunName
       installationID integrationID prNum key : string)
    (intID instID num : Z) (pr : github.PullRequest.t) :
  let tbl := runsimaws.DdbTable_Config awsRegion primaryKey tableName in
  let ssm := runsimaws.Ssm_Config awsRegion in
  let item := scratch_record repoOwner repoName checkRunName
                installationID integrationID prNum in
  let t1 := trace w ++ [EvPutState tbl item] in
  let t2 := t1 ++ [EvGetParameter ssm privateKeyID] in
  let t3 := t2 ++ [EvGhappNew intID instID key] in
  let t4 := t3 ++ [EvPullRequestsGet repoOwner repoName num] in
  let built := run (ConfigFromScratch h awsRegion privateKeyID repoOwner repoName
                      checkRunName installationID integrationID prNum) gh w in
  let created := and_then built (CreateNewCheckRun h) in
  let opt := create_options checkRunName pr in
  ddb_fault h (trace w) = None ->
  ssm_GetParameter h t1 ssm privateKeyID = inl key ->
  strconv.Atoi integrationID = inl intID ->
  strconv.Atoi installationID = inl instID ->
  strconv.Atoi prNum = inl num ->
  ghapp_New h t2 intID instID key = None ->
  PullRequests_Get h t3 repoOwner repoName num = (Some pr, None) ->
  result built = Returns None /\
  trace (world_after created) = t4 ++ [EvCreateCheckRun repoOwner repoName opt] /\
  ActiveCheckRun (receiver created)
    = fst (Checks_CreateCheckRun h t4 repoOwner repoName opt) /\
  forall p, result created = Panics p ->
            Checks_CreateCheckRun h t4 repoOwner repoName opt = (None, None).
Proof.
  intros tbl ssm item t1 t2 t3 t4 built created opt
    Hput Hsec Hint Hinst Hnum Hauth Hfetch.
  subst created built opt.
  unfold and_then, ConfigFromScratch, DdbTable_PutState. unfold_monad. simpl.
  change (marshal _) with item. fold tbl.
  rewrite Hput. simpl.
  assert (Hk : item !! primaryKey = Some "GitHub") by apply lookup_insert_eq.
  rewrite Hk. simpl.
  erewrite authenticate_served with (key := key) (intID := intID) (instID := instID)
    (owner := repoOwner) (repo := repoName) (num := num); simpl;
    try reflexivity; try assumption.
  2: { unfold GetAppIntID, atoi_or_panic; simpl. rewrite Hint. reflexivity. }
  2: { unfold GetAppInstID, atoi_or_panic; simpl. rewrite Hinst. reflexivity. }
  2: { unfold GetPrNum, atoi_or_panic; simpl. rewrite Hnum. reflexivity. }
  fold ssm. fold t1. fold t2. fold t3. rewrite Hfetch. simpl.
  split; [reflexivity|].
  unfold CreateNewCheckRun, create_options. unfold_monad. simpl.
  fold t4.
  destruct (Checks_CreateCheckRun h t4 _ _ _) as [[cr|] [e|]]; simpl;
    repeat split; try reflexivity; intros; congruence.
Qed.

(** X23.  Before any check run is tracked.  On an authenticated receiver
    whose [ActiveCheckRun] is nil, [UpdateActiveCheckRun] and
    [ConcludeCheckRun] do not fail locally: the first asks the host for the
    check run with id 0, the second sends an update for id 0 under the empty
    name. *)
Theorem untracked_run_is_addressed_as_zero
    (h : Host) (gh : Integration) (w : World)
    (c : github_client.Client) (owner repo : string)
    (summary conclusion : option string) :
  Client gh = Some c ->
  RepoOwner gh = Some owner ->
  RepoName gh = Some repo ->
  ActiveCheckRun gh = None ->
  trace (world_after (run (UpdateActiveCheckRun h) gh w))
    = trace w ++ [EvGetCheckRun owner repo 0] /\
  exists opt,
    trace (world_after (run (ConcludeCheckRun h summary conclusion) gh w))
      = trace w ++ [EvUpdateCheckRun owner repo 0 opt] /\
    github.UpdateCheckRunOptions.Name opt = "".
Proof.
  intros Hc Ho Hr Ha.
  destruct gh as [c' pr a st it crn inst int ro rn pn]; simpl in *; subst.
  unfold UpdateActiveCheckRun, ConcludeCheckRun, send_update. unfold_monad. simpl.
  split; [reflexivity|]. eexists. split; reflexivity.
Qed.

(** X24.  A receiver that had no client and whose construction returned an
    error before the pull-request fetch is unusable: [CreateNewCheckRun],
    [SetActiveCheckRun], [UpdateActiveCheckRun], [UpdateCheckRunStatus] and
    [ConcludeCheckRun] on it all panic with a nil dereference, without a
    call. *)
Theorem failed_construction_leaves_unusable_receiver
    (h : Host) (gh : Integration) (w : World)
    (awsRegion privateKeyID repoOwner repoName checkRunName
       installationID integrationID prNum : string) (err : error) :
  let built := run (ConfigFromScratch h awsRegion privateKeyID repoOwner repoName
                      checkRunName installationID integrationID prNum) gh w in
  Client gh = None ->
  result built = Returns (Some err) ->
  fetch_reached (new_calls w (world_after built)) = false ->
  let refused (r : outcome (option error) * Session) :=
    result r = Panics NilDereference /\ world_after r = world_after built in
  refused (and_then built (CreateNewCheckRun h)) /\
  refused (and_then built (SetActiveCheckRun h)) /\
  refused (and_then built (UpdateActiveCheckRun h)) /\
  (forall status summary, refused (and_then built (UpdateCheckRunStatus h status summary))) /\
  (forall summary conclusion, refused (and_then built (ConcludeCheckRun h summary conclusion))).
Proof.
  intros built Hc Hres Hfetch refused. subst refused.
  assert (Hnone : Client (receiver built) = None).
  { assert (Hout : construction_outcome h gh (new_calls w (world_after built)) built).
    { subst built. unfold ConfigFromScratch, DdbTable_PutState. unfold_monad. simpl.
      set (tbl := runsimaws.DdbTable_Config awsRegion primaryKey tableName).
      set (item := marshal _).
      destruct (ddb_fault h (trace w)) as [e|]; simpl.
      { rewrite (new_calls_app w _ [EvPutState tbl item]) by reflexivity.
        split; [|discriminate]. intros _. split; [discriminate | reflexivity]. }
      assert (Hk : item !! primaryKey = Some "GitHub") by apply lookup_insert_eq.
      rewrite Hk. simpl.
      apply authenticate_outcome with (pre := [EvPutState tbl item]); reflexivity. }
    destruct Hout as (Hstop & _).
    destruct (Hstop Hfetch) as (_ & Hkeep).
    rewrite (Hkeep err Hres). exact Hc. }
  unfold and_then.
  destruct (receiver built) as [c pr a st it crn inst int ro rn pn]. simpl in Hnone. subst c.
  generalize (world_after built). intros w'.
  split; [|split; [|split; [|split]]]; intros;
    unfold CreateNewCheckRun, SetActiveCheckRun, UpdateActiveCheckRun,
      UpdateCheckRunStatus, ConcludeCheckRun, send_update;
    unfold_monad; simpl; case_matches; repeat split; reflexivity.
Qed.

(** * The further properties at the fixtures *)

Lemma ConfigFromScratch_served_witness :
  let r := fixture_scratch healthy_host in
  result r = Returns None /\
  Client (receiver r) = Some (app_client 1 2 "pem") /\
  PR (receiver r) = Some fixture_pr.
Proof.
  intros r.
  destruct (ConfigFromScratch_served healthy_host zero_Integration empty_world
              "us-east-1" "key-id" "cosmos" "tools" "sim" "2" "1" "7" "pem" 1 2 7
              eq_refl eq_refl eq_refl eq_refl eq_refl eq_refl)
    as (_ & Hc & Hp & Hr & _).
  split; [exact Hr|]. split; [exact Hc | exact Hp].
Defined.

Lemma ConfigFromState_served_witness :
  let r := run (ConfigFromState healthy_host "us-east-1" "key-id")
             zero_Integration (world_with_record fixture_record) in
  result r = Returns None /\
  Client (receiver r) = Some (app_client 1 2 "pem") /\
  CheckRunName (receiver r) = Some "sim".
Proof.
  intros r.
  destruct (ConfigFromState_served healthy_host zero_Integration
              (world_with_record fixture_record) "us-east-1" "key-id" "pem" fixture_record
              "cosmos" "tools" "sim" "2" "1" "7" 1 2 7
              eq_refl ltac:(vm_compute; reflexivity)
              ltac:(vm_compute; reflexivity) ltac:(vm_compute; reflexivity)
              ltac:(vm_compute; reflexivity) ltac:(vm_compute; reflexivity)
              ltac:(vm_compute; reflexivity) ltac:(vm_compute; reflexivity)
              eq_refl eq_refl eq_refl eq_refl eq_refl)
    as (_ & Hc & _ & Hr & Hn & _).
  split; [exact Hr|]. split; [exact Hc | exact Hn].
Defined.

Lemma ConfigFromScratch_bad_app_id_panics_after_write_witness :
  let r := run (ConfigFromScratch healthy_host "us-east-1" "key-id" "cosmos" "tools" "sim"
                  "2" "app-one" "7") zero_Integration empty_world in
  result r = Panics (PanicError (NumError "Atoi" "app-one" ErrSyntax)) /\
  tables (world_after r) !! state_key "us-east-1" = Some fixture_record_bad_app /\
  Client (receiver r) = None.
Proof.
  intros r.
  destruct (ConfigFromScratch_bad_app_id_panics_after_write healthy_host zero_Integration
              empty_world "us-east-1" "key-id" "cosmos" "tools" "sim" "2" "app-one" "7" "pem"
              (NumError "Atoi" "app-one" ErrSyntax)
              eq_refl eq_refl (or_introl eq_refl))
    as (Hr & _ & Ht & Hc).
  split; [exact Hr|]. split; [|exact Hc].
  fold r in Ht. rewrite Ht. apply lookup_insert_eq.
Defined.

Lemma ConfigFromScratch_bad_PrNum_panics_with_client_witness :
  let r := run (ConfigFromScratch healthy_host "us-east-1" "key-id" "cosmos" "tools" "sim"
                  "2" "1" "seven") zero_Integration empty_world in
  result r = Panics (PanicError (NumError "Atoi" "seven" ErrSyntax)) /\
  Client (receiver r) = Some (app_client 1 2 "pem") /\
  PR (receiver r) = None.
Proof.
  intros r.
  destruct (ConfigFromScratch_bad_PrNum_panics_with_client healthy_host zero_Integration
              empty_world "us-east-1" "key-id" "cosmos" "tools" "sim" "2" "1" "seven" "pem"
              1 2 (NumError "Atoi" "seven" ErrSyntax)
              eq_refl eq_refl eq_refl eq_refl eq_refl eq_refl)
    as (Hr & _ & Hc & Hp).
  split; [exact Hr|]. split; [exact Hc | exact Hp].
Defined.

Lemma ConfigFromState_incomplete_record_stops_witness :
  let r := run (ConfigFromState healthy_host "us-east-1" "key-id")
             zero_Integration (world_with_record (marshal fixture_without_PrNum)) in
  result r = Returns (Some (errors_New "ErrorMissingAttribute: PrNum")) /\
  Client (receiver r) = None.
Proof.
  intros r.
  destruct (ConfigFromState_incomplete_record_stops healthy_host zero_Integration
              (world_with_record (marshal fixture_without_PrNum)) "us-east-1" "key-id"
              (marshal fixture_without_PrNum) (errors_New "ErrorMissingAttribute: PrNum")
              eq_refl ltac:(vm_compute; reflexivity) ltac:(vm_compute; reflexivity))
    as (Hr & _ & Hc & _).
  split; [exact Hr | exact Hc].
Defined.

Lemma ConfigFromState_validated_record_can_panic_witness :
  let r := run (ConfigFromState healthy_host "us-east-1" "key-id")
             zero_Integration (world_with_record fixture_record_bad_app) in
  ValidateState (unmarshal fixture_record_bad_app zero_Integration) = None /\
  result r = Panics (PanicError (NumError "Atoi" "app-one" ErrSyntax)).
Proof.
  intros r.
  destruct (ConfigFromState_validated_record_can_panic healthy_host zero_Integration
              (world_with_record fixture_record_bad_app) "us-east-1" "key-id" "pem"
              fixture_record_bad_app "cosmos" "tools" "sim" "2" "app-one" "7"
              (NumError "Atoi" "app-one" ErrSyntax)
              eq_refl ltac:(vm_compute; reflexivity)
              ltac:(vm_compute; reflexivity) ltac:(vm_compute; reflexivity)
              ltac:(vm_compute; reflexivity) ltac:(vm_compute; reflexivity)
              ltac:(vm_compute; reflexivity) ltac:(vm_compute; reflexivity)
              eq_refl eq_refl)
    as (Hv & Hr & _).
  split; [exact Hv | exact Hr].
Defined.

Lemma ConfigFromState_reads_only_witness :
  let r := run (ConfigFromState store_down_host "us-east-1" "key-id")
             fixture_without_PrNum (world_with_record fixture_record) in
  result r = Returns (Some (Remote "RequestError")) /\
  same_identity (receiver r) fixture_without_PrNum /\
  tables (world_after r) = tables (world_with_record fixture_record).
Proof.
  intros r.
  destruct (ConfigFromState_reads_only store_down_host fixture_without_PrNum
              (world_with_record fixture_record) "us-east-1" "key-id") as (Ht & Hf).
  destruct (Hf (Remote "RequestError") eq_refl) as (Hr & _ & Hid & _).
  split; [exact Hr|]. split; [exact Hid | exact Ht].
Defined.

Lemma check_run_operations_need_client_witness :
  result (run (ConcludeCheckRun healthy_host (Some "done") (Some "success"))
            zero_Integration empty_world) = Panics NilDereference /\
  world_after (run (CreateNewCheckRun healthy_host) zero_Integration empty_world)
    = empty_world.
Proof.
  destruct (check_run_operations_need_client healthy_host zero_Integration empty_world
              eq_refl) as ((_ & _ & Hw) & _ & _ & _ & Hconclude).
  destruct (Hconclude (Some "done") (Some "success")) as (Hr & _).
  split; [exact Hr | exact Hw].
Defined.

Lemma validated_receiver_accessors_witness :
  GetOwner fixture_integration = Returns "cosmos" /\
  GetPrNum fixture_integration <> Panics NilDereference.
Proof.
  destruct (validated_receiver_accessors fixture_integration eq_refl)
    as ((owner & repo & name & Ho & Hgo & _) & Hp & _).
  injection Ho as <-. split; [exact Hgo | exact Hp].
Defined.

Lemma CreateNewCheckRun_request_and_result_witness :
  let r := run (CreateNewCheckRun healthy_host) fixture_integration empty_world in
  trace (world_after r) =
    [EvCreateCheckRun "cosmos" "tools" (create_options "sim" fixture_pr)] /\
  result r = Returns None /\
  ActiveCheckRun (receiver r) = Some (fixture_run "sim" None).
Proof.
  intros r.
  destruct (CreateNewCheckRun_request_and_result healthy_host fixture_integration
              empty_world fixture_client "cosmos" "tools" "sim" fixture_pr
              eq_refl eq_refl eq_refl eq_refl eq_refl)
    as (Ht & Ha & _ & Hok & _).
  split; [exact Ht|]. split; [exact (Hok _ eq_refl) | exact Ha].
Defined.

Lemma SetActiveCheckRun_request_and_errors_witness :
  let r := run (SetActiveCheckRun checks_down_host) fixture_integration empty_world in
  result r = Returns (Some (Remote "502 Bad Gateway")) /\
  receiver r = fixture_integration /\
  trace (world_after r) =
    [EvListCheckRunsForRef "cosmos" "tools" "feature" (latest_named "sim")].
Proof.
  intros r.
  destruct (SetActiveCheckRun_request_and_errors checks_down_host fixture_integration
              empty_world fixture_client "cosmos" "tools" "sim" fixture_pr
              eq_refl eq_refl eq_refl eq_refl eq_refl)
    as (Ht & Herr & _).
  destruct (Herr (Remote "502 Bad Gateway") eq_refl) as (Hr & Hs).
  split; [exact Hr|]. split; [exact Hs | exact Ht].
Defined.

Lemma create_then_conclude_targets_created_run_witness :
  let created := run (CreateNewCheckRun healthy_host) fixture_integration empty_world in
  let concluded :=
    and_then created (ConcludeCheckRun healthy_host (Some "done") (Some "success")) in
  exists opt,
    trace (world_after concluded) =
      [EvCreateCheckRun "cosmos" "tools" (create_options "sim" fixture_pr);
       EvUpdateCheckRun "cosmos" "tools" 11 opt] /\
    github.UpdateCheckRunOptions.Name opt = "sim".
Proof.
  intros created concluded.
  destruct (create_then_conclude_targets_created_run healthy_host fixture_integration
              empty_world fixture_client "cosmos" "tools" "sim" fixture_pr
              (fixture_run "sim" None) (Some "done") (Some "success")
              eq_refl eq_refl eq_refl eq_refl eq_refl eq_refl)
    as (_ & opt & Ht & Hn & _).
  exists opt. split; [exact Ht | exact Hn].
Defined.

Lemma locate_then_refresh_targets_located_run_witness :
  let located := run (SetActiveCheckRun healthy_host)
                   (set_ActiveCheckRun None fixture_integration) empty_world in
  let refreshed := and_then located (UpdateActiveCheckRun healthy_host) in
  trace (world_after refreshed) =
    [EvListCheckRunsForRef "cosmos" "tools" "feature" (latest_named "sim");
     EvGetCheckRun "cosmos" "tools" 11].
Proof.
  intros located refreshed.
  destruct (locate_then_refresh_targets_located_run healthy_host
              (set_ActiveCheckRun None fixture_integration) empty_world fixture_client
              "cosmos" "tools" "sim" fixture_pr
              (fixture_list [Some (fixture_run "sim" None)])
              (Some (fixture_run "sim" None)) []
              eq_refl eq_refl eq_refl eq_refl eq_refl eq_refl eq_refl eq_refl)
    as (Ht & _).
  exact Ht.
Defined.

Lemma nameless_created_run_breaks_receiver_witness :
  let created := run (CreateNewCheckRun nameless_host) fixture_integration empty_world in
  result created = Returns None /\
  CheckRunName (receiver created) = None /\
  result (and_then created (SetActiveCheckRun nameless_host)) = Panics NilDereference.
Proof.
  intros created.
  destruct (nameless_created_run_breaks_receiver nameless_host fixture_integration
              empty_world fixture_client "cosmos" "tools" "sim" fixture_pr _
              eq_refl eq_refl eq_refl eq_refl eq_refl eq_refl eq_refl)
    as (Hr & Hn & _ & _ & Hs).
  split; [exact Hr|]. split; [exact Hn | exact Hs].
Defined.

Lemma headless_pull_request_witness :
  result (run (UpdateCheckRunStatus healthy_host (Some "in_progress") None)
            fixture_headless empty_world) = Panics NilDereference /\
  exists opt,
    trace (world_after (run (CreateNewCheckRun healthy_host) fixture_headless empty_world))
      = [EvCreateCheckRun "cosmos" "tools" opt] /\
    github.CreateCheckRunOptions.HeadBranch opt = "".
Proof.
  destruct (headless_pull_request healthy_host fixture_headless empty_world
              fixture_client "cosmos" "tools" "sim" headless_pr (Some "in_progress") None
              eq_refl eq_refl eq_refl eq_refl eq_refl eq_refl)
    as (Ht & Hr & _).
  split; [exact Hr|]. eexists. split; [exact Ht | reflexivity].
Defined.

Lemma DeleteState_removes_only_its_record_witness :
  let r := run (DeleteState healthy_host) fixture_integration
             (world_with_record fixture_record) in
  result r = Returns None /\
  tables (world_after r) !! state_key "us-east-1" = None /\
  receiver r = fixture_integration.
Proof.
  intros r.
  destruct (DeleteState_removes_only_its_record healthy_host fixture_integration
              (world_with_record fixture_record)
              (runsimaws.DdbTable_Config "us-east-1" primaryKey tableName) eq_refl)
    as (_ & Hs & _ & Hok).
  destruct (Hok eq_refl) as (Hr & Hgone & _).
  split; [exact Hr|]. split; [exact Hgone | exact Hs].
Defined.

Lemma deleted_state_cannot_be_resumed_witness :
  let written := fixture_scratch healthy_host in
  let deleted := and_then written (DeleteState healthy_host) in
  let resumed := run (ConfigFromState healthy_host "us-east-1" "key-id")
                   zero_Integration (world_after deleted) in
  (exists err, result resumed = Returns (Some err)) /\
  Client (receiver resumed) = None.
Proof.
  intros written deleted resumed.
  destruct (deleted_state_cannot_be_resumed healthy_host zero_Integration zero_Integration
              empty_world "us-east-1" "key-id" "cosmos" "tools" "sim" "2" "1" "7" "key-id"
              eq_refl eq_refl)
    as (_ & _ & _ & He & _ & Hc).
  split; [exact He | exact Hc].
Defined.

Lemma second_fresh_construction_replaces_record_witness :
  let first := fixture_scratch healthy_host in
  let second := run (ConfigFromScratch healthy_host "us-east-1" "key-id" "tendermint"
                       "iavl" "bench" "4" "3" "99") zero_Integration (world_after first) in
  tables (world_after second) !! state_key "us-east-1"
    = Some (scratch_record "tendermint" "iavl" "bench" "4" "3" "99").
Proof.
  intros first second.
  destruct (second_fresh_construction_replaces_record healthy_host healthy_host
              zero_Integration zero_Integration empty_world "us-east-1"
              "key-id" "cosmos" "tools" "sim" "2" "1" "7"
              "key-id" "tendermint" "iavl" "bench" "4" "3" "99" eq_refl eq_refl)
    as (_ & Ht).
  subst second first. unfold fixture_scratch. rewrite Ht. apply lookup_insert_eq.
Defined.

Lemma signed_identifier_is_accepted_witness :
  GetPrNum (unmarshal {[ "PrNum" := "-7" ]} zero_Integration) = Returns (-7).
Proof.
  destruct (signed_identifier_is_accepted
              (unmarshal {[ "PrNum" := "-7" ]} zero_Integration) "7" "" 7 eq_refl eq_refl)
    as (_ & _ & Hneg).
  exact (Hneg eq_refl).
Defined.

Lemma fresh_construction_then_create_witness :
  let built := fixture_scratch healthy_host in
  let created := and_then built (CreateNewCheckRun healthy_host) in
  result built = Returns None /\
  ActiveCheckRun (receiver created) = Some (fixture_run "sim" None) /\
  exists hist,
    trace (world_after created) =
      hist ++ [EvCreateCheckRun "cosmos" "tools" (create_options "sim" fixture_pr)].
Proof.
  intros built created.
  destruct (fresh_construction_then_create healthy_host zero_Integration empty_world
              "us-east-1" "key-id" "cosmos" "tools" "sim" "2" "1" "7" "pem" 1 2 7 fixture_pr
              eq_refl eq_refl eq_refl eq_refl eq_refl eq_refl eq_refl)
    as (Hr & Ht & Ha & _).
  split; [exact Hr|]. split; [exact Ha|]. eexists. exact Ht.
Defined.

Lemma untracked_run_is_addressed_as_zero_witness :
  trace (world_after (run (UpdateActiveCheckRun healthy_host)
                        (set_ActiveCheckRun None fixture_integration) empty_world))
    = [EvGetCheckRun "cosmos" "tools" 0].
Proof.
  destruct (untracked_run_is_addressed_as_zero healthy_host
              (set_ActiveCheckRun None fixture_integration) empty_world fixture_client
              "cosmos" "tools" None None eq_refl eq_refl eq_refl eq_refl)
    as (Ht & _).
  exact Ht.
Defined.

Lemma failed_construction_leaves_unusable_receiver_witness :
  let built := fixture_scratch secret_down_host in
  result built = Returns (Some (Remote "ParameterNotFound")) /\
  result (and_then built (CreateNewCheckRun secret_down_host)) = Panics NilDereference.
Proof.
  intros built.
  assert (Hr : result built = Returns (Some (Remote "ParameterNotFound")))
    by (vm_compute; reflexivity).
  destruct (failed_construction_leaves_unusable_receiver secret_down_host zero_Integration
              empty_world "us-east-1" "key-id" "cosmos" "tools" "sim" "2" "1" "7"
              (Remote "ParameterNotFound") eq_refl Hr ltac:(vm_compute; reflexivity))
    as ((Hp & _) & _).
  split; [exact Hr | exact Hp].
Defined.
